(** * Shayna cosmetics storefront: checkout, payment and order lookup

    A shallow embedding of the client logic of [PaymentPage] (pricing,
    checkout entry, product-detail fetch, payment submission) and of
    [MyOrdersPage] (order lookup), with the properties the specification
    states about them.

    Conventions of the embedding:
    - a JavaScript [number] is a binary64 float ([PrimFloat.float]); [===] on
      numbers is [PrimFloat.eqb], [+] and [*] are the IEEE operations;
    - React state is a record, one field per [useState]; a handler reads the
      state of the render it was created in and its [setX] calls update the
      record;
    - everything a handler does to the outside (requests issued, navigation,
      local storage, console) is recorded in a [World];
    - an [await] receives the settled promise as an argument of the handler:
      the handler is a function of what the network answers. *)

From Stdlib Require Import Floats List Bool ZArith Lia.
From Stdlib Require Import Strings.Ascii Strings.String Numbers.DecimalString.
From Stdlib Require DecimalNat.
Import ListNotations.

Set Warnings "-inexact-float".
Local Open Scope string_scope.
Local Open Scope list_scope.

(** ** JavaScript values used by the pages *)

(** [number]. *)
Definition number := float.
Bind Scope float_scope with number.

(** [`${index}`] for an array index. *)
Definition index_text (index : nat) : string :=
  NilZero.string_of_uint (Nat.to_uint index).

(** Truthiness of a string that may be [undefined]/[null]. *)
Definition truthy (s : option string) : bool :=
  match s with
  | Some "" => false
  | Some _ => true
  | None => false
  end.

(** [`${v}`] and [String(v)] for a string that may be [undefined]. *)
Definition text_of (v : option string) : string :=
  match v with
  | Some s => s
  | None => "undefined"
  end.

(** [array.forEach((item, index) => ...)] collecting what each call appends. *)
Fixpoint flat_mapi {A B : Type} (f : nat -> A -> list B) (index : nat) (l : list A)
  : list B :=
  match l with
  | [] => []
  | item :: rest => f index item ++ flat_mapi f (S index) rest
  end.

(** ** types/type.ts *)

Module CartItem.
Record t := mk { cosmetic_id : number; slug : string; quantity : number }.
End CartItem.

(** [Cosmetic]: the scalar members; the nested [category], [brand],
    [benefits], [photos] and [testimonials] are read by no handler. *)
Module Cosmetic.
Record t := mk {
  id : number;
  price : number;
  duration : number;
  name : string;
  slug : string;
  is_popular : bool;
  thumbnail : string;
  about : string
}.
End Cosmetic.

Module BookingFormData.
Record t := mk {
  name : string;
  email : string;
  phone : string;
  post_codes : string;
  address : string;
  city : string
}.
End BookingFormData.

Module TransactionDetails.
Record t := mk {
  id : number;
  price : number;
  cosmetic_id : number;
  quantity : number;
  cosmetic : Cosmetic.t
}.
End TransactionDetails.

Module BookingDetails.
Record t := mk {
  id : number;
  name : string;
  phone : string;
  email : string;
  proof : option string;
  address : string;
  post_code : string;
  city : string;
  booking_trx_id : string;
  quantity : number;
  is_paid : bool;
  sub_total_amount : number;
  total_tax_amount : number;
  total_amount : number;
  transaction_details : list TransactionDetails.t
}.
End BookingDetails.

(** A browser [File], by the members the pages can observe. *)
Module File.
Record t := mk { name : string; type : string }.
End File.

(** ** zod *)

Module Zod.
Record ZodIssue := mkIssue { path : list string; message : string }.

Inductive SafeParseReturn :=
| success
| failure (issues : list ZodIssue).

Record Schema (A : Type) := { safeParse : A -> SafeParseReturn }.
Arguments safeParse {A} _ _.

(** [error.path.includes(field)] *)
Definition path_includes (field : string) (error : ZodIssue) : bool :=
  existsb (String.eqb field) (path error).

(** [formErrors.find((error) => error.path.includes(field))?.message]:
    what the form shows under [field]. *)
Definition shown_message (formErrors : list ZodIssue) (field : string)
  : option string :=
  option_map message (find (path_includes field) formErrors).
End Zod.

(** ** Promises, axios, the router and local storage *)

Inductive JsError :=
| AxiosError (response_status : option Z)   (* [err.response?.status] *)
| TypeError
| OtherError.

Definition isAxiosError (err : JsError) : bool :=
  match err with
  | AxiosError _ => true
  | _ => false
  end.

(** [err.response] with its [status], when the error has one. *)
Definition response_status_of (err : JsError) : option Z :=
  match err with
  | AxiosError response_status => response_status
  | _ => None
  end.

(** A settled promise. *)
Inductive Settled (A : Type) :=
| Fulfilled (value : A)
| Rejected (reason : JsError).
Arguments Fulfilled {A} _.
Arguments Rejected {A} _.

(** [Promise.all]: fulfilled with every value, in order, when every promise
    is fulfilled; rejected as soon as one is. *)
Fixpoint Promise_all {A : Type} (promises : list (Settled A)) : Settled (list A) :=
  match promises with
  | [] => Fulfilled []
  | Rejected reason :: _ => Rejected reason
  | Fulfilled value :: rest =>
      match Promise_all rest with
      | Fulfilled values => Fulfilled (value :: values)
      | Rejected reason => Rejected reason
      end
  end.

(** [response.data] of an axios response: [null]/[undefined], or an object
    whose [data] member may be missing. *)
Inductive ResponseData (A : Type) :=
| NoBody
| Envelope (data : option A).
Arguments NoBody {A}.
Arguments Envelope {A} _.

Record AxiosResponse (A : Type) := mkResponse {
  status : Z;
  response_data : ResponseData A
}.
Arguments mkResponse {A} _ _.
Arguments status {A} _.
Arguments response_data {A} _.

(** One part of a multipart [FormData] body. *)
Inductive FormDataEntryValue :=
| FileValue (file : File.t)
| TextValue (text : string).

Definition FormDataBody := list (string * FormDataEntryValue).

Inductive RequestBody :=
| Multipart (parts : FormDataBody)
| CheckBookingJson (email booking_trx_id : string).

Inductive Request :=
| GET (url : string)
| POST (url : string) (body : RequestBody).

(** [navigate(to, { state })]. *)
Record LocationState := mkLocationState {
  bookingDetails : option BookingDetails.t;
  notFound : bool
}.

Record Navigation := mkNavigation {
  to : string;
  state : option LocationState
}.

(** [localStorage], by the two keys the pages use, each holding the JSON
    text of a value of the type the code casts it to. *)
Record Storage := mkStorage {
  stored_cart : option (list CartItem.t);
  stored_bookingData : option BookingFormData.t
}.

Definition removeItem (key : string) (storage : Storage) : Storage :=
  if String.eqb key "cart" then
    mkStorage None (stored_bookingData storage)
  else if String.eqb key "bookingData" then
    mkStorage (stored_cart storage) None
  else storage.

(** Is [key] present in the store? *)
Definition has_key (key : string) (storage : Storage) : bool :=
  if String.eqb key "cart" then
    match stored_cart storage with Some _ => true | None => false end
  else if String.eqb key "bookingData" then
    match stored_bookingData storage with Some _ => true | None => false end
  else false.

(** ** Handlers as state transformers that may throw *)

Record World (S : Type) := mkWorld {
  page : S;                          (* React state of the page *)
  localStorage : Storage;
  navigations : list Navigation;     (* calls of [navigate], oldest first *)
  requests : list Request;           (* calls of [apiClient], oldest first *)
  console : list string              (* [console.error] messages *)
}.
Arguments mkWorld {S} _ _ _ _ _.
Arguments page {S} _.
Arguments localStorage {S} _.
Arguments navigations {S} _.
Arguments requests {S} _.
Arguments console {S} _.

Inductive Completion (A : Type) :=
| Normal (value : A)
| Throw (reason : JsError).
Arguments Normal {A} _.
Arguments Throw {A} _.

Definition M (S A : Type) := World S -> Completion A * World S.

Definition ret {S A : Type} (a : A) : M S A := fun w => (Normal a, w).

Definition bind {S A B : Type} (m : M S A) (k : A -> M S B) : M S B :=
  fun w =>
    match m w with
    | (Normal a, w') => k a w'
    | (Throw reason, w') => (Throw reason, w')
    end.

Notation "x <- m ;; k" := (bind m (fun x => k))
  (at level 61, m at next level, right associativity).
Notation "m ;; k" := (bind m (fun _ => k))
  (at level 61, right associativity).

Definition throw {S A : Type} (reason : JsError) : M S A :=
  fun w => (Throw reason, w).

(** [try { body } catch (err) { handler }] *)
Definition try_catch {S A : Type} (body : M S A) (handler : JsError -> M S A)
  : M S A :=
  fun w =>
    match body w with
    | (Normal a, w') => (Normal a, w')
    | (Throw reason, w') => handler reason w'
    end.

(** [try { body } finally { cleanup }] *)
Definition try_finally {S A : Type} (body : M S A) (cleanup : M S unit) : M S A :=
  fun w =>
    match body w with
    | (completion, w') =>
        match cleanup w' with
        | (Normal _, w'') => (completion, w'')
        | (Throw reason, w'') => (Throw reason, w'')
        end
    end.

Definition read_page {S : Type} : M S S := fun w => (Normal (page w), w).

(** A [setX] call: [f] rewrites the page state. *)
Definition update {S : Type} (f : S -> S) : M S unit :=
  fun w =>
    (Normal tt,
     mkWorld (f (page w)) (localStorage w) (navigations w) (requests w) (console w)).

Definition navigate {S : Type} (target : string) (st : option LocationState)
  : M S unit :=
  fun w =>
    (Normal tt,
     mkWorld (page w) (localStorage w)
             (navigations w ++ [mkNavigation target st]) (requests w) (console w)).

Definition console_error {S : Type} (msg : string) : M S unit :=
  fun w =>
    (Normal tt,
     mkWorld (page w) (localStorage w) (navigations w) (requests w)
             (console w ++ [msg])).

Definition localStorage_removeItem {S : Type} (key : string) : M S unit :=
  fun w =>
    (Normal tt,
     mkWorld (page w) (removeItem key (localStorage w)) (navigations w)
             (requests w) (console w)).

Definition read_storage {S : Type} : M S Storage :=
  fun w => (Normal (localStorage w), w).

(** The call of [apiClient.get]/[apiClient.post]: the request leaves. *)
Definition send {S : Type} (request : Request) : M S unit :=
  fun w =>
    (Normal tt,
     mkWorld (page w) (localStorage w) (navigations w) (requests w ++ [request])
             (console w)).

(** [await promise] *)
Definition await {S A : Type} (promise : Settled A) : M S A :=
  match promise with
  | Fulfilled value => ret value
  | Rejected reason => throw reason
  end.

(** World after running a handler. *)
Definition run {S A : Type} (m : M S A) (w : World S) : World S := snd (m w).

(** How the handler completed. *)
Definition completion {S A : Type} (m : M S A) (w : World S) : Completion A :=
  fst (m w).

(** ** PaymentPage.tsx *)

Module PaymentPage.
Import Zod.

(** An element of [cosmetic_ids]. *)
Module IdQuantity.
Record t := mk { id : number; quantity : number }.
End IdQuantity.

Module FormData.
Record t := mk {
  proof : option File.t;
  cosmetic_ids : list IdQuantity.t
}.
End FormData.

Record State := mkState {
  formData : FormData.t;
  cart : list CartItem.t;
  cosmeticDetails : list Cosmetic.t;
  bookingData : option BookingFormData.t;
  formErrors : list ZodIssue;
  loading : bool;
  successMessage : option string;
  error : option string;
  fileName : option string
}.

(** The [useState] initial values. *)
Definition initial : State :=
  mkState (FormData.mk None []) [] [] None [] true None None None.

Definition setFormData (f : FormData.t -> FormData.t) : M State unit :=
  update (fun s =>
    mkState (f (formData s)) (cart s) (cosmeticDetails s) (bookingData s)
            (formErrors s) (loading s) (successMessage s) (error s) (fileName s)).

Definition setCart (v : list CartItem.t) : M State unit :=
  update (fun s =>
    mkState (formData s) v (cosmeticDetails s) (bookingData s)
            (formErrors s) (loading s) (successMessage s) (error s) (fileName s)).

Definition setCosmeticDetails (v : list Cosmetic.t) : M State unit :=
  update (fun s =>
    mkState (formData s) (cart s) v (bookingData s)
            (formErrors s) (loading s) (successMessage s) (error s) (fileName s)).

Definition setBookingData (v : option BookingFormData.t) : M State unit :=
  update (fun s =>
    mkState (formData s) (cart s) (cosmeticDetails s) v
            (formErrors s) (loading s) (successMessage s) (error s) (fileName s)).

Definition setFormErrors (v : list ZodIssue) : M State unit :=
  update (fun s =>
    mkState (formData s) (cart s) (cosmeticDetails s) (bookingData s)
            v (loading s) (successMessage s) (error s) (fileName s)).

Definition setLoading (v : bool) : M State unit :=
  update (fun s =>
    mkState (formData s) (cart s) (cosmeticDetails s) (bookingData s)
            (formErrors s) v (successMessage s) (error s) (fileName s)).

Definition setSuccessMessage (v : option string) : M State unit :=
  update (fun s =>
    mkState (formData s) (cart s) (cosmeticDetails s) (bookingData s)
            (formErrors s) (loading s) v (error s) (fileName s)).

Definition setError (v : option string) : M State unit :=
  update (fun s =>
    mkState (formData s) (cart s) (cosmeticDetails s) (bookingData s)
            (formErrors s) (loading s) (successMessage s) v (fileName s)).

Definition setFileName (v : option string) : M State unit :=
  update (fun s =>
    mkState (formData s) (cart s) (cosmeticDetails s) (bookingData s)
            (formErrors s) (loading s) (successMessage s) (error s) v).

(** The page as it mounts, with [storage] as found in the browser. *)
Definition mount (storage : Storage) : World State :=
  mkWorld initial storage [] [] [].

Definition TAX_RATE : number := 0.11%float.

(** *** Product-detail fetch *)

(** [cartItems.map(async (item) => ...)]: every callback runs up to its
    [await], so every request leaves before any answer is looked at;
    [replies index] is how the promise of the callback for the item at
    [index] settles (fulfilled with [response.data.data], or rejected). *)
Fixpoint start_lookups (replies : nat -> Settled Cosmetic.t) (index : nat)
         (cartItems : list CartItem.t) : M State (list (Settled Cosmetic.t)) :=
  match cartItems with
  | [] => ret []
  | item :: rest =>
      send (GET ("/cosmetic/" ++ CartItem.slug item)) ;;
      promises <- start_lookups replies (S index) rest ;;
      ret (replies index :: promises)
  end.

(** The requests of the fetch: one [GET /cosmetic/<slug>] per cart item. *)
Definition lookups (cartItems : list CartItem.t) : list Request :=
  map (fun item => GET ("/cosmetic/" ++ CartItem.slug item)) cartItems.

Definition fetchCosmeticDetails (replies : nat -> Settled Cosmetic.t)
           (cartItems : list CartItem.t) : M State unit :=
  try_catch
    (promises <- start_lookups replies 0 cartItems ;;
     fetchedDetails <- await (Promise_all promises) ;;
     setCosmeticDetails fetchedDetails ;;
     setLoading false ;;
     let cosmeticIdsWithQuantities :=
       map (fun cartItem =>
              IdQuantity.mk (CartItem.cosmetic_id cartItem)
                            (CartItem.quantity cartItem))
           cartItems in
     setFormData (fun prevData =>
       FormData.mk (FormData.proof prevData) cosmeticIdsWithQuantities))
    (fun _ =>
       console_error "Error fetching cosmetic details:" ;;
       setError (Some "Failed to fetch cosmetic details") ;;
       setLoading false).

(** *** Entering checkout: the mount effect *)

Definition useEffect (replies : nat -> Settled Cosmetic.t) : M State unit :=
  storage <- read_storage ;;
  let cartData := stored_cart storage in
  let savedBookingData := stored_bookingData storage in
  match savedBookingData with
  | Some draft => setBookingData (Some draft)
  | None => ret tt
  end ;;
  match cartData with
  | None => navigate "/" None
  | Some [] => navigate "/" None
  | Some cartItems =>
      setCart cartItems ;;
      fetchCosmeticDetails replies cartItems
  end.

(** *** Pricing, recomputed on every render *)

Definition subtotal (cart : list CartItem.t) (cosmeticDetails : list Cosmetic.t)
  : number :=
  fold_left
    (fun acc cosmetic =>
       let cartItem :=
         find (fun item =>
                 PrimFloat.eqb (CartItem.cosmetic_id item) (Cosmetic.id cosmetic))
              cart in
       (acc + match cartItem with
              | Some cartItem => Cosmetic.price cosmetic * CartItem.quantity cartItem
              | None => 0
              end)%float)
    cosmeticDetails 0%float.

Definition totalQuantity (cart : list CartItem.t) : number :=
  fold_left (fun acc item => (acc + CartItem.quantity item)%float) cart 0%float.

Definition tax (cart : list CartItem.t) (cosmeticDetails : list Cosmetic.t)
  : number :=
  (subtotal cart cosmeticDetails * TAX_RATE)%float.

Definition total (cart : list CartItem.t) (cosmeticDetails : list Cosmetic.t)
  : number :=
  (subtotal cart cosmeticDetails + tax cart cosmeticDetails)%float.

(** *** The proof-of-payment input *)

Definition handleChange (files : option (list File.t)) : M State unit :=
  let file :=
    match files with
    | Some (first :: _) => Some first
    | _ => None
    end in
  setFormData (fun prev => FormData.mk file (FormData.cosmetic_ids prev)) ;;
  setFileName (option_map File.name file).

(** *** Payment submission *)

(** [bookingData.post_code]: [BookingFormData] declares [post_codes] and no
    member [post_code], so on a draft of that type the read is [undefined]. *)
Definition bookingData_post_code (draft : BookingFormData.t) : option string :=
  None.

(** The body of [POST /booking-transaction]; [FormData.append] turns a
    value that is no file into its string. *)
Section Submission.
(** [String(n)] for a number, the host's [Number::toString]. *)
Variable String_of_number : number -> string.

Definition submissionData_of (formData : FormData.t)
           (bookingData : option BookingFormData.t) : FormDataBody :=
  (match FormData.proof formData with
   | Some file => [("proof", FileValue file)]
   | None => []
   end
  ++ match bookingData with
     | Some draft =>
         [("name", TextValue (BookingFormData.name draft));
          ("email", TextValue (BookingFormData.email draft));
          ("phone", TextValue (BookingFormData.phone draft));
          ("address", TextValue (BookingFormData.address draft));
          ("city", TextValue (BookingFormData.city draft));
          ("post_code", TextValue (text_of (bookingData_post_code draft)))]
     | None => []
     end
  ++ flat_mapi
       (fun index item =>
          [(("cosmetic_ids[" ++ index_text index ++ "][id]")%string,
            TextValue (String_of_number (IdQuantity.id item)));
           (("cosmetic_ids[" ++ index_text index ++ "][quantity]")%string,
            TextValue (String_of_number (IdQuantity.quantity item)))])
       0 (FormData.cosmetic_ids formData))%list.

(** What [POST /booking-transaction] answers under [data]. *)
Record TransactionData := mkTransactionData {
  booking_trx_id : option string;
  email : option string
}.

(** [response.data.data.member]: throws when [response.data] or
    [response.data.data] is [undefined]. *)
Definition data_of {A : Type} (response : AxiosResponse A) : M State A :=
  match response_data response with
  | Envelope (Some data) => ret data
  | _ => throw TypeError
  end.

(** [paymentSchema] is imported from [types/validationBooking]. *)
Variable paymentSchema : Schema FormData.t.

Definition handleSubmit (reply : Settled (AxiosResponse TransactionData))
  : M State unit :=
  rendered <- read_page ;;
  let formData := formData rendered in
  let bookingData := bookingData rendered in
  match safeParse paymentSchema formData with
  | failure issues => setFormErrors issues
  | success =>
      setFormErrors [] ;;
      let submissionData := submissionData_of formData bookingData in
      try_catch
        (setLoading true ;;
         send (POST "/booking-transaction" (Multipart submissionData)) ;;
         response <- await reply ;;
         if (status response =? 200)%Z || (status response =? 201)%Z then
           data <- data_of response ;;
           let bookingTrxId := booking_trx_id data in
           let email := email data in
           (if negb (truthy bookingTrxId)
            then console_error "Error: booking_trx_id is undefined"
            else ret tt) ;;
           setSuccessMessage (Some "Payment proof uploaded successfully") ;;
           localStorage_removeItem "cart" ;;
           localStorage_removeItem "bookingData" ;;
           setFormData (fun _ => FormData.mk None []) ;;
           setLoading false ;;
           navigate ("/booking-finished?trx_id=" ++ text_of bookingTrxId
                       ++ "&email=" ++ text_of email) None
         else
           console_error "Unexpected response status" ;;
           setLoading false)
        (fun _ =>
           console_error "Error submitting payment proof" ;;
           setLoading false ;;
           setFormErrors [])
  end.
End Submission.

(** *** What the page shows *)

Inductive View :=
| LoadingView
| ErrorView (error : string)
| SummaryView (totalQuantity subtotal tax total : number)
              (proofError : option string) (submitDisabled : bool).

Definition render (s : State) : View :=
  if loading s then LoadingView
  else if truthy (error s) then ErrorView (text_of (error s))
  else SummaryView (totalQuantity (cart s))
                   (subtotal (cart s) (cosmeticDetails s))
                   (tax (cart s) (cosmeticDetails s))
                   (total (cart s) (cosmeticDetails s))
                   (shown_message (formErrors s) "proof")
                   (loading s).
End PaymentPage.

(** ** MyOrdersPage.tsx *)

Module MyOrdersPage.
Import Zod.

Module FormData.
Record t := mk { email : string; booking_trx_id : string }.
End FormData.

Record State := mkState {
  formData : FormData.t;
  formErrors : list ZodIssue;
  loading : bool
}.

(** The [useState] initial values. *)
Definition initial : State := mkState (FormData.mk "" "") [] false.

Definition setFormData (f : FormData.t -> FormData.t) : M State unit :=
  update (fun s => mkState (f (formData s)) (formErrors s) (loading s)).

Definition setFormErrors (v : list ZodIssue) : M State unit :=
  update (fun s => mkState (formData s) v (loading s)).

Definition setLoading (v : bool) : M State unit :=
  update (fun s => mkState (formData s) (formErrors s) v).

(** [[name]: value] on the two inputs of the form. *)
Definition handleChange (name value : string) : M State unit :=
  setFormData (fun prev =>
    if String.eqb name "email" then
      FormData.mk value (FormData.booking_trx_id prev)
    else if String.eqb name "booking_trx_id" then
      FormData.mk (FormData.email prev) value
    else prev).

Definition found (details : BookingDetails.t) : option LocationState :=
  Some (mkLocationState (Some details) false).

Definition not_found : option LocationState :=
  Some (mkLocationState None true).

Section Lookup.
(** [viewBookingSchema] is imported from [types/validationBooking]. *)
Variable viewBookingSchema : Schema FormData.t.

Definition handleSubmit (reply : Settled (AxiosResponse BookingDetails.t))
  : M State unit :=
  rendered <- read_page ;;
  let formData := formData rendered in
  match safeParse viewBookingSchema formData with
  | failure issues => setFormErrors issues
  | success =>
      setFormErrors [] ;;
      setLoading true ;;
      try_finally
        (try_catch
           (send (POST "/check-booking"
                       (CheckBookingJson (FormData.email formData)
                                         (FormData.booking_trx_id formData))) ;;
            response <- await reply ;;
            if (status response =? 200)%Z then
              (* [&&] reads [response.data.data] only now *)
              match response_data response with
              | NoBody => throw TypeError
              | Envelope (Some details) =>
                  navigate "/my-booking" (found details)
              | Envelope None => navigate "/my-booking" not_found
              end
            else navigate "/my-booking" not_found)
           (fun err =>
              if isAxiosError err then
                match response_status_of err with
                | Some code =>
                    if (code =? 404)%Z then navigate "/my-booking" not_found
                    else ret tt
                | None => ret tt
                end
              else ret tt))
        (setLoading false)
  end.
End Lookup.
End MyOrdersPage.

(** ** types/validationBooking *)

Module ValidationBooking.
Import Zod.

(** Modelled from the spec: [paymentSchema] of [types/validationBooking],
    which is not among the sources. The spec's rule for the submission is
    that the proof file is required; its rules on contact fields apply
    only where such fields are present, and the object the page validates
    ([proof], [cosmetic_ids]) has none. *)
Definition paymentSchema : Schema PaymentPage.FormData.t :=
  {| safeParse formData :=
       match PaymentPage.FormData.proof formData with
       | Some _ => success
       | None => failure [mkIssue ["proof"] "Proof of payment is required"]
       end |}.

Section ViewBooking.
(** The syntactic rules on the two fields; the spec names them (a
    transaction id, a syntactically valid email) without spelling them
    out. *)
Variables valid_booking_trx_id valid_email : string -> bool.

(** Modelled from the spec: [viewBookingSchema] of
    [types/validationBooking], which is not among the sources: it
    validates the (transaction id, email) pair, one rule per field. *)
Definition viewBookingSchema : Schema MyOrdersPage.FormData.t :=
  {| safeParse formData :=
       let issues :=
         ((if valid_email (MyOrdersPage.FormData.email formData) then []
           else [mkIssue ["email"] "Invalid email address"])
          ++
          (if valid_booking_trx_id (MyOrdersPage.FormData.booking_trx_id formData)
           then []
           else [mkIssue ["booking_trx_id"] "Invalid booking transaction id"]))%list in
       match issues with
       | [] => success
       | _ => failure issues
       end |}.
End ViewBooking.
End ValidationBooking.

(** ** The pricing rule in the specification's words *)

Module PricingSpec.
(** The first cart item whose [cosmetic_id] equals [id]. *)
Fixpoint first_with_id (id : number) (cart : list CartItem.t)
  : option CartItem.t :=
  match cart with
  | [] => None
  | item :: rest =>
      if PrimFloat.eqb (CartItem.cosmetic_id item) id then Some item
      else first_with_id id rest
  end.

(** What one fetched detail contributes: price times the quantity of its
    cart item, 0 when the cart has none. *)
Definition line_amount (cart : list CartItem.t) (detail : Cosmetic.t) : number :=
  match first_with_id (Cosmetic.id detail) cart with
  | Some item => (Cosmetic.price detail * CartItem.quantity item)%float
  | None => 0%float
  end.

(** Sum of numbers, added from the left starting at 0. *)
Definition sum (terms : list number) : number :=
  fold_left PrimFloat.add terms 0%float.
End PricingSpec.

(** ** Cart items with the details fetched for them *)

Module CartLines.
(** A cart item paired with the detail fetched for it: the detail carries
    the item's id, a number that [===] itself. *)
Definition fetched_for (line : CartItem.t * Cosmetic.t) : Prop :=
  Cosmetic.id (snd line) = CartItem.cosmetic_id (fst line)
  /\ PrimFloat.eqb (CartItem.cosmetic_id (fst line))
                   (CartItem.cosmetic_id (fst line)) = true.

(** Two cart lines for different products. *)
Definition other_product (earlier later : CartItem.t * Cosmetic.t) : Prop :=
  PrimFloat.eqb (CartItem.cosmetic_id (fst earlier))
                (CartItem.cosmetic_id (fst later)) = false.
End CartLines.

(** ** Sample data *)

Module Sample.
Definition cart : list CartItem.t := [CartItem.mk 1 "x" 2].

Definition detail : Cosmetic.t :=
  Cosmetic.mk 1 100000 0 "Lip Tint" "x" false "lip-tint.png" "".

Definition draft : BookingFormData.t :=
  BookingFormData.mk "Ana" "a@b.com" "0812000111" "40111" "Jl. Mawar 1" "Bandung".

Definition receipt : File.t := File.mk "receipt.png" "image/png".

Definition storage : Storage := mkStorage (Some cart) (Some draft).

(** The payment page once the details are fetched and a file is chosen. *)
Definition ready : PaymentPage.State :=
  PaymentPage.mkState
    (PaymentPage.FormData.mk (Some receipt) [PaymentPage.IdQuantity.mk 1 2])
    cart [detail] (Some draft) [] false None None (Some "receipt.png").

Definition checkout : World PaymentPage.State :=
  mkWorld ready storage [] [] [].

(** The same page before a file is chosen. *)
Definition no_file : World PaymentPage.State :=
  mkWorld
    (PaymentPage.mkState
       (PaymentPage.FormData.mk None [PaymentPage.IdQuantity.mk 1 2])
       cart [detail] (Some draft) [] false None None None)
    storage [] [] [].

(** [String(n)] on an integer-valued number, the form ids and quantities
    take: its decimal digits. *)
Definition integer_text (n : number) : string :=
  match Prim2SF n with
  | SpecFloat.S754_zero _ => "0"
  | SpecFloat.S754_finite negative m e =>
      let magnitude :=
        (if 0 <=? e then Z.pos m * 2 ^ e else Z.pos m / 2 ^ (- e))%Z in
      NilZero.string_of_int
        (Z.to_int (if negative then - magnitude else magnitude)%Z)
  | SpecFloat.S754_infinity negative =>
      if negative then "-Infinity" else "Infinity"
  | SpecFloat.S754_nan => "NaN"
  end.

Definition nonempty (s : string) : bool := negb (String.eqb s "").

(** Does [s] hold an at sign? Enough to tell [a@b.com] from
    [not-an-email]. *)
Fixpoint has_at (s : string) : bool :=
  match s with
  | EmptyString => false
  | String c rest => Ascii.eqb c "@"%char || has_at rest
  end.

Definition viewBookingSchema : Zod.Schema MyOrdersPage.FormData.t :=
  ValidationBooking.viewBookingSchema nonempty has_at.

Definition lookup (email booking_trx_id : string) : World MyOrdersPage.State :=
  mkWorld (MyOrdersPage.mkState (MyOrdersPage.FormData.mk email booking_trx_id)
                                [] false)
          storage [] [] [].

Definition order : BookingDetails.t :=
  BookingDetails.mk 7 "Ana" "0812000111" "a@b.com" (Some "proofs/receipt.png")
                    "Jl. Mawar 1" "40111" "Bandung" "TRX1" 2 true
                    200000 22000 222000 [].
End Sample.

(** * Properties *)

(** ** Pricing *)

Section Pricing.
Import PaymentPage PricingSpec.
Local Open Scope float_scope.

Lemma find_first_with_id (id : number) (cart : list CartItem.t) :
  find (fun item => PrimFloat.eqb (CartItem.cosmetic_id item) id) cart
  = first_with_id id cart.
Proof.
  induction cart as [|item rest IH]; simpl; [reflexivity|].
  now rewrite IH.
Qed.

Lemma fold_left_add_map {A : Type} (f : A -> number) (l : list A) (acc : number) :
  fold_left (fun acc x => acc + f x) l acc = fold_left PrimFloat.add (map f l) acc.
Proof.
  revert acc; induction l as [|x l IH]; intros acc; simpl; [reflexivity|].
  apply IH.
Qed.

Lemma fold_left_add_ext {A : Type} (f g : A -> number) (l : list A) (acc : number) :
  (forall x, f x = g x) ->
  fold_left (fun acc x => acc + f x) l acc = fold_left (fun acc x => acc + g x) l acc.
Proof.
  intros H. revert acc; induction l as [|x l IH]; intros acc; simpl; [reflexivity|].
  now rewrite H, IH.
Qed.

Lemma subtotal_line_amounts (cart : list CartItem.t) (details : list Cosmetic.t) :
  subtotal cart details = sum (map (line_amount cart) details).
Proof.
  unfold subtotal, sum.
  rewrite <- (fold_left_add_map (line_amount cart) details 0).
  apply fold_left_add_ext. intros detail.
  unfold line_amount. now rewrite find_first_with_id.
Qed.

Lemma first_with_id_none (id : number) (cart : list CartItem.t) :
  (forall item, In item cart -> PrimFloat.eqb (CartItem.cosmetic_id item) id = false) ->
  first_with_id id cart = None.
Proof.
  induction cart as [|item rest IH]; intros H; simpl; [reflexivity|].
  rewrite (H item (or_introl eq_refl)). apply IH.
  intros other Hin. apply H. now right.
Qed.

Lemma first_with_id_skip (id : number) (before after : list CartItem.t)
      (item : CartItem.t) :
  PrimFloat.eqb (CartItem.cosmetic_id item) id = false ->
  first_with_id id (before ++ item :: after) = first_with_id id (before ++ after).
Proof.
  intros H. induction before as [|b before IH]; simpl.
  - now rewrite H.
  - now rewrite IH.
Qed.

Lemma first_with_id_first (id : number) (before after : list CartItem.t)
      (item : CartItem.t) :
  PrimFloat.eqb (CartItem.cosmetic_id item) id = true ->
  (forall earlier, In earlier before ->
     PrimFloat.eqb (CartItem.cosmetic_id earlier) id = false) ->
  first_with_id id (before ++ item :: after) = Some item.
Proof.
  intros Hitem Hbefore. induction before as [|b before IH]; simpl.
  - now rewrite Hitem.
  - rewrite (Hbefore b (or_introl eq_refl)). apply IH.
    intros earlier Hin. apply Hbefore. now right.
Qed.

Lemma sum_map_ext_in {A : Type} (f g : A -> number) (l : list A) :
  (forall x, In x l -> f x = g x) -> sum (map f l) = sum (map g l).
Proof.
  intros H. f_equal. apply map_ext_in, H.
Qed.

(** C1: the subtotal is the sum, over the fetched details, of price times
    the quantity of the first cart item with the detail's id; a detail
    without a cart item adds 0, a cart item without a detail changes
    nothing in the subtotal, and the total quantity is the sum of the
    quantities of all cart items, whatever was fetched. *)
Theorem subtotal_sums_matched_lines
        (cart : list CartItem.t) (details : list Cosmetic.t) :
  subtotal cart details = sum (map (line_amount cart) details)
  /\ (forall detail before item after,
         cart = before ++ item :: after ->
         PrimFloat.eqb (CartItem.cosmetic_id item) (Cosmetic.id detail) = true ->
         (forall earlier, In earlier before ->
            PrimFloat.eqb (CartItem.cosmetic_id earlier) (Cosmetic.id detail)
            = false) ->
         line_amount cart detail = Cosmetic.price detail * CartItem.quantity item)
  /\ (forall detail,
         (forall item, In item cart ->
            PrimFloat.eqb (CartItem.cosmetic_id item) (Cosmetic.id detail) = false) ->
         line_amount cart detail = 0)
  /\ (forall before item after,
         cart = before ++ item :: after ->
         (forall detail, In detail details ->
            PrimFloat.eqb (CartItem.cosmetic_id item) (Cosmetic.id detail) = false) ->
         subtotal cart details = subtotal (before ++ after) details)
  /\ totalQuantity cart = sum (map CartItem.quantity cart)
  /\ (let cart := [CartItem.mk 1 "x" 2; CartItem.mk 9 "y" 5; CartItem.mk 1 "z" 4] in
      let details := [Sample.detail; Cosmetic.mk 7 5000 0 "Serum" "s" true "" ""] in
      subtotal cart details = 200000 /\ totalQuantity cart = 11).
Proof.
  split; [apply subtotal_line_amounts|]. split; [|split; [|split; [|split]]].
  - intros detail before item after -> Hitem Hbefore. unfold line_amount.
    now rewrite (first_with_id_first _ _ _ _ Hitem Hbefore).
  - intros detail Hnone. unfold line_amount. now rewrite first_with_id_none.
  - intros before item after -> Hnone.
    rewrite !subtotal_line_amounts. apply sum_map_ext_in.
    intros detail Hin. unfold line_amount.
    rewrite first_with_id_skip; [reflexivity|]. now apply Hnone.
  - unfold totalQuantity, sum. apply fold_left_add_map.
  - split; reflexivity.
Qed.

(** C2: the tax is the subtotal times the fixed rate 0.11 and the total is
    the subtotal plus that tax, neither rounded by the code; for the cart
    [{cosmetic_id:1, slug:"x", quantity:2}] and a fetched detail with id 1
    and price 100000 the four figures are 200000, 2, 22000 and 222000. *)
Theorem tax_and_total_from_subtotal
        (cart : list CartItem.t) (details : list Cosmetic.t) :
  tax cart details = subtotal cart details * 0.11
  /\ total cart details = subtotal cart details + subtotal cart details * 0.11
  /\ (forall duration name slug is_popular thumbnail about,
        let cart := [CartItem.mk 1 "x" 2] in
        let details :=
          [Cosmetic.mk 1 100000 duration name slug is_popular thumbnail about] in
        subtotal cart details = 200000
        /\ totalQuantity cart = 2
        /\ tax cart details = 22000
        /\ total cart details = 222000)
  /\ (forall cart details,
        subtotal cart details = 150 ->
        tax cart details = 16.5 /\ total cart details = 166.5).
Proof.
  repeat split; try reflexivity.
  - unfold tax. rewrite H. reflexivity.
  - unfold total, tax. rewrite H. reflexivity.
Qed.
End Pricing.

(** ** Payment submission *)

Section PaymentSubmission.
Import Zod PaymentPage.

Variable String_of_number : number -> string.
Variable paymentSchema : Schema FormData.t.

Let submit := handleSubmit String_of_number paymentSchema.

(** Unfolds a handler down to the world it returns. *)
Ltac step_handler :=
  unfold run, completion, submit, handleSubmit, data_of, try_catch, bind,
    read_page, await, ret, throw; cbn.

(** Closes a goal that holds whatever the answer is, by cases on it. *)
Ltac by_reply reply :=
  let code := fresh "code" in
  let body := fresh "body" in
  let trx_id := fresh "trx_id" in
  destruct reply as [[code body]|?]; cbn; [|reflexivity];
  destruct (code =? 200)%Z, (code =? 201)%Z; cbn; try reflexivity;
  destruct body as [|[[trx_id ?]|]]; cbn; try reflexivity;
  destruct (truthy trx_id); reflexivity.

(** A submission that passes validation sends its one request, with the
    multipart body built from the rendered state, whatever the answer. *)
Lemma valid_submission_sends_once
      (w : World State) (reply : Settled (AxiosResponse TransactionData)) :
  safeParse paymentSchema (formData (page w)) = success ->
  requests (run (submit reply) w)
  = requests w
    ++ [POST "/booking-transaction"
             (Multipart (submissionData_of String_of_number (formData (page w))
                                           (bookingData (page w))))].
Proof.
  intros Hvalid. step_handler. rewrite Hvalid. by_reply reply.
Qed.

(** C3: a 200 or 201 answer carrying a transaction id and an email removes
    the keys [cart] and [bookingData], resets the submission to
    [{proof: null, cosmetic_ids: []}] and navigates to
    [/booking-finished?trx_id=<id>&email=<email>]; with [TRX1] and
    [a@b.com] that is [/booking-finished?trx_id=TRX1&email=a@b.com]. *)
Theorem accepted_submission_clears_and_navigates
        (w : World State) (code : Z) (trx_id email : string) :
  safeParse paymentSchema (formData (page w)) = success ->
  code = 200%Z \/ code = 201%Z ->
  let answer body := Fulfilled (mkResponse code (Envelope (Some body))) in
  let reply := answer (mkTransactionData (Some trx_id) (Some email)) in
  let w' := run (submit reply) w in
  completion (submit reply) w = Normal tt
  /\ has_key "cart" (localStorage w') = false
  /\ has_key "bookingData" (localStorage w') = false
  /\ formData (page w') = FormData.mk None []
  /\ successMessage (page w') = Some "Payment proof uploaded successfully"
  /\ loading (page w') = false
  /\ navigations w'
     = navigations w
       ++ [mkNavigation ("/booking-finished?trx_id=" ++ trx_id
                           ++ "&email=" ++ email)%string None]
  /\ navigations
       (run (submit (answer (mkTransactionData (Some "TRX1") (Some "a@b.com")))) w)
     = navigations w
       ++ [mkNavigation "/booking-finished?trx_id=TRX1&email=a@b.com" None].
Proof.
  intros Hvalid Hcode answer reply w'.
  subst w' reply answer. step_handler. rewrite Hvalid.
  destruct Hcode; subst code; cbn; destruct trx_id; cbn; repeat split; reflexivity.
Qed.

(** C10: when the request of a validated submission throws, the chosen
    proof file and the [cosmetic_ids] list stay as they were, as do both
    storage keys; the field errors are the empty list afterwards, and the
    request is not sent again. *)
Theorem rejected_submission_keeps_the_form
        (w : World State) (reason : JsError) :
  safeParse paymentSchema (formData (page w)) = success ->
  let w' := run (submit (Rejected reason)) w in
  completion (submit (Rejected reason)) w = Normal tt
  /\ FormData.proof (formData (page w')) = FormData.proof (formData (page w))
  /\ FormData.cosmetic_ids (formData (page w'))
     = FormData.cosmetic_ids (formData (page w))
  /\ fileName (page w') = fileName (page w)
  /\ localStorage w' = localStorage w
  /\ formErrors (page w') = []
  /\ loading (page w') = false
  /\ navigations w' = navigations w
  /\ requests w'
     = requests w
       ++ [POST "/booking-transaction"
                (Multipart (submissionData_of String_of_number
                              (formData (page w)) (bookingData (page w))))].
Proof.
  intros Hvalid w'. subst w'. step_handler. rewrite Hvalid. cbn.
  repeat split; reflexivity.
Qed.

(** C4, on the code: a 200 answer whose body has an email and no
    [booking_trx_id] is logged as an error and then handled as a success:
    both storage keys are removed, the form is reset and the page
    navigates to the confirmation route with [trx_id=undefined]. *)
Theorem answer_without_trx_id_is_handled_as_success :
  let reply :=
    Fulfilled (mkResponse 200%Z
      (Envelope (Some (mkTransactionData None (Some "a@b.com"))))) in
  let w' :=
    run (handleSubmit String_of_number ValidationBooking.paymentSchema reply)
        Sample.checkout in
  has_key "cart" (localStorage Sample.checkout) = true
  /\ has_key "bookingData" (localStorage Sample.checkout) = true
  /\ console w' = ["Error: booking_trx_id is undefined"]
  /\ has_key "cart" (localStorage w') = false
  /\ has_key "bookingData" (localStorage w') = false
  /\ formData (page w') = FormData.mk None []
  /\ successMessage (page w') = Some "Payment proof uploaded successfully"
  /\ navigations w'
     = [mkNavigation "/booking-finished?trx_id=undefined&email=a@b.com" None].
Proof.
  cbv zeta. repeat split; reflexivity.
Qed.

(** C9, on the code: the multipart body is the proof file under [proof],
    then, when a draft is present, [name], [email], [phone], [address] and
    [city] from the draft and [post_code] holding the text [undefined]
    (the draft's postal code is its member [post_codes], which the code
    does not read), then [cosmetic_ids[i][id]] and
    [cosmetic_ids[i][quantity]] per pair; without a draft the contact
    parts are absent. On the sample draft with postal code [40111] the
    request carries [post_code = undefined]. *)
Theorem post_code_part_is_undefined
        (file : File.t) (ids : list IdQuantity.t) (draft : BookingFormData.t) :
  let indexed :=
    flat_mapi
      (fun index item =>
         [(("cosmetic_ids[" ++ index_text index ++ "][id]")%string,
           TextValue (String_of_number (IdQuantity.id item)));
          (("cosmetic_ids[" ++ index_text index ++ "][quantity]")%string,
           TextValue (String_of_number (IdQuantity.quantity item)))])
      0 ids in
  submissionData_of String_of_number (FormData.mk (Some file) ids) (Some draft)
  = [("proof", FileValue file);
     ("name", TextValue (BookingFormData.name draft));
     ("email", TextValue (BookingFormData.email draft));
     ("phone", TextValue (BookingFormData.phone draft));
     ("address", TextValue (BookingFormData.address draft));
     ("city", TextValue (BookingFormData.city draft));
     ("post_code", TextValue "undefined")] ++ indexed
  /\ submissionData_of String_of_number (FormData.mk (Some file) ids) None
     = ("proof", FileValue file) :: indexed
  /\ BookingFormData.post_codes Sample.draft = "40111"
  /\ forall reply,
       requests
         (run (handleSubmit String_of_number ValidationBooking.paymentSchema reply)
              Sample.checkout)
       = [POST "/booking-transaction"
            (Multipart
               [("proof", FileValue Sample.receipt);
                ("name", TextValue "Ana");
                ("email", TextValue "a@b.com");
                ("phone", TextValue "0812000111");
                ("address", TextValue "Jl. Mawar 1");
                ("city", TextValue "Bandung");
                ("post_code", TextValue "undefined");
                ("cosmetic_ids[0][id]", TextValue (String_of_number 1));
                ("cosmetic_ids[0][quantity]", TextValue (String_of_number 2))])].
Proof.
  cbv zeta. repeat split.
  intros reply. step_handler. by_reply reply.
Qed.
End PaymentSubmission.

(** The theorem of C3 on the sample checkout, answered with [TRX1] and
    [a@b.com]. *)
Lemma accepted_submission_witness :
  Zod.safeParse ValidationBooking.paymentSchema
                (PaymentPage.formData (page Sample.checkout))
  = Zod.success
  /\ (200 = 200 \/ 200 = 201)%Z
  /\ let reply :=
       Fulfilled (mkResponse 200%Z
         (Envelope (Some (PaymentPage.mkTransactionData
                            (Some "TRX1") (Some "a@b.com"))))) in
     let w' :=
       run (PaymentPage.handleSubmit Sample.integer_text
              ValidationBooking.paymentSchema reply)
           Sample.checkout in
     has_key "cart" (localStorage Sample.checkout) = true
     /\ has_key "cart" (localStorage w') = false
     /\ has_key "bookingData" (localStorage w') = false
     /\ navigations w'
        = [mkNavigation "/booking-finished?trx_id=TRX1&email=a@b.com" None].
Proof.
  split; [reflexivity|]. split; [left; reflexivity|].
  destruct (accepted_submission_clears_and_navigates
              Sample.integer_text ValidationBooking.paymentSchema
              Sample.checkout 200 "TRX1" "a@b.com" eq_refl (or_introl eq_refl))
    as (_ & Hcart & Hdraft & _ & _ & _ & Hnav & _).
  cbv zeta. split; [reflexivity|]. split; [exact Hcart|].
  split; [exact Hdraft | exact Hnav].
Defined.

(** The theorem of C10 on the sample checkout, the request failing without
    a response. *)
Lemma rejected_submission_witness :
  Zod.safeParse ValidationBooking.paymentSchema
                (PaymentPage.formData (page Sample.checkout))
  = Zod.success
  /\ let w' :=
       run (PaymentPage.handleSubmit Sample.integer_text
              ValidationBooking.paymentSchema (Rejected (AxiosError None)))
           Sample.checkout in
     PaymentPage.FormData.proof (PaymentPage.formData (page w'))
     = Some Sample.receipt
     /\ localStorage w' = Sample.storage
     /\ PaymentPage.formErrors (page w') = [].
Proof.
  split; [reflexivity|].
  destruct (rejected_submission_keeps_the_form
              Sample.integer_text ValidationBooking.paymentSchema
              Sample.checkout (AxiosError None) eq_refl)
    as (_ & Hproof & _ & _ & Hstore & Herrors & _).
  cbv zeta. split; [exact Hproof|]. split; [exact Hstore | exact Herrors].
Defined.

(** ** Entering checkout and fetching the product details *)

Section Checkout.
Import PaymentPage.

Variable replies : nat -> Settled Cosmetic.t.

Lemma start_lookups_sends_all (cartItems : list CartItem.t) :
  forall (index : nat) (w : World State),
    start_lookups replies index cartItems w
    = (Normal (map replies (seq index (List.length cartItems))),
       mkWorld (page w) (localStorage w) (navigations w)
               (requests w ++ lookups cartItems) (console w)).
Proof.
  induction cartItems as [|item rest IH]; intros index w; simpl.
  - unfold ret. rewrite app_nil_r. now destruct w.
  - unfold bind, send at 1. rewrite IH. cbn.
    now rewrite <- app_assoc.
Qed.

Lemma Promise_all_rejects {A : Type} (promises : list (Settled A)) :
  (exists reason, In (Rejected reason) promises) ->
  exists reason, Promise_all promises = Rejected reason.
Proof.
  induction promises as [|promise rest IH]; intros [reason Hin].
  - destruct Hin.
  - simpl. destruct promise as [value|first]; [|now exists first].
    destruct Hin as [Heq|Hin]; [discriminate|].
    destruct IH as [r Hr]; [now exists reason|].
    rewrite Hr. now exists r.
Qed.

Lemma Promise_all_fulfils {A : Type} (values : list A) :
  Promise_all (map Fulfilled values) = Fulfilled values.
Proof.
  induction values as [|value rest IH]; simpl; [reflexivity|].
  now rewrite IH.
Qed.

Lemma rejected_reply_in_promises (cartItems : list CartItem.t) :
  (exists index reason,
      index < List.length cartItems /\ replies index = Rejected reason) ->
  exists reason, In (Rejected reason) (map replies (seq 0 (List.length cartItems))).
Proof.
  intros (index & reason & Hlt & Hrej). exists reason.
  rewrite <- Hrej. apply in_map, in_seq. lia.
Qed.

(** The fetch on a cart whose lookups do not all succeed. *)
Lemma fetch_with_rejection (cartItems : list CartItem.t) (w : World State) :
  (exists index reason,
      index < List.length cartItems /\ replies index = Rejected reason) ->
  fetchCosmeticDetails replies cartItems w
  = (Normal tt,
     mkWorld
       (mkState (formData (page w)) (cart (page w)) (cosmeticDetails (page w))
                (bookingData (page w)) (formErrors (page w)) false
                (successMessage (page w))
                (Some "Failed to fetch cosmetic details") (fileName (page w)))
       (localStorage w) (navigations w) (requests w ++ lookups cartItems)
       (console w ++ ["Error fetching cosmetic details:"])).
Proof.
  intros Hrej.
  destruct (Promise_all_rejects _ (rejected_reply_in_promises _ Hrej)) as [r Hr].
  unfold fetchCosmeticDetails, try_catch, bind at 1.
  rewrite start_lookups_sends_all, Hr. reflexivity.
Qed.

(** The fetch on a cart whose lookups all succeed keeps every detail, in
    cart order, and fills [cosmetic_ids] from the cart. *)
Lemma fetch_all_fulfilled (cartItems : list CartItem.t) (w : World State)
      (details : nat -> Cosmetic.t) :
  (forall index, index < List.length cartItems ->
     replies index = Fulfilled (details index)) ->
  fetchCosmeticDetails replies cartItems w
  = (Normal tt,
     mkWorld
       (mkState
          (FormData.mk (FormData.proof (formData (page w)))
             (map (fun cartItem =>
                     IdQuantity.mk (CartItem.cosmetic_id cartItem)
                                   (CartItem.quantity cartItem)) cartItems))
          (cart (page w)) (map details (seq 0 (List.length cartItems)))
          (bookingData (page w)) (formErrors (page w)) false
          (successMessage (page w)) (error (page w)) (fileName (page w)))
       (localStorage w) (navigations w) (requests w ++ lookups cartItems)
       (console w)).
Proof.
  intros Hall.
  unfold fetchCosmeticDetails, try_catch, bind at 1.
  rewrite start_lookups_sends_all.
  replace (map replies (seq 0 (List.length cartItems)))
    with (map Fulfilled (map details (seq 0 (List.length cartItems)))).
  - rewrite Promise_all_fulfils. reflexivity.
  - rewrite map_map. apply map_ext_in. intros index Hin.
    symmetry. apply Hall. apply in_seq in Hin. lia.
Qed.

(** Whatever the lookups answer, the fetch completes, sends its requests
    once and touches neither the cart, the draft nor the router. *)
Lemma fetch_frame (cartItems : list CartItem.t) (w : World State) :
  exists page' console',
    fetchCosmeticDetails replies cartItems w
    = (Normal tt,
       mkWorld page' (localStorage w) (navigations w)
               (requests w ++ lookups cartItems) console')
    /\ cart page' = cart (page w)
    /\ bookingData page' = bookingData (page w).
Proof.
  unfold fetchCosmeticDetails, try_catch, bind at 1.
  rewrite start_lookups_sends_all.
  destruct (Promise_all _); cbn; do 2 eexists; repeat split.
Qed.

(** C7: for every cart and whatever the lookups answer, the fetch sends
    one request per cart item, in cart order, and completes; it joins on
    all of them: when every lookup is fulfilled the page keeps every
    detail, in cart order, with one [cosmetic_ids] pair per item; when one
    of the lookups fails the page is in the error state, keeps the details
    list and the [cosmetic_ids] list it had (empty, on a page that just
    mounted), shows the error and no summary, and sends nothing again. *)
Theorem failed_lookup_fails_the_fetch
        (cartItems : list CartItem.t) (w : World State) :
  let w' := run (fetchCosmeticDetails replies cartItems) w in
  (requests w' = requests w ++ lookups cartItems
   /\ List.length (lookups cartItems) = List.length cartItems
   /\ completion (fetchCosmeticDetails replies cartItems) w = Normal tt)
  /\ (forall details,
        (forall index, index < List.length cartItems ->
           replies index = Fulfilled (details index)) ->
        cosmeticDetails (page w') = map details (seq 0 (List.length cartItems))
        /\ FormData.cosmetic_ids (formData (page w'))
           = map (fun cartItem =>
                    IdQuantity.mk (CartItem.cosmetic_id cartItem)
                                  (CartItem.quantity cartItem)) cartItems
        /\ loading (page w') = false
        /\ error (page w') = error (page w))
  /\ ((exists index reason,
          index < List.length cartItems /\ replies index = Rejected reason) ->
      error (page w') = Some "Failed to fetch cosmetic details"
      /\ loading (page w') = false
      /\ render (page w') = ErrorView "Failed to fetch cosmetic details"
      /\ cosmeticDetails (page w') = cosmeticDetails (page w)
      /\ FormData.cosmetic_ids (formData (page w'))
         = FormData.cosmetic_ids (formData (page w))
      /\ (forall storage,
            stored_cart storage = Some cartItems ->
            let mounted := run (useEffect replies) (mount storage) in
            cosmeticDetails (page mounted) = []
            /\ FormData.cosmetic_ids (formData (page mounted)) = []
            /\ render (page mounted)
               = ErrorView "Failed to fetch cosmetic details"
            /\ requests mounted = lookups cartItems)).
Proof.
  cbv zeta. split; [|split].
  - destruct (fetch_frame cartItems w) as (page' & console' & Heq & _).
    unfold run, completion. rewrite Heq. cbn.
    split; [reflexivity|]. split; [apply length_map | reflexivity].
  - intros details Hall. unfold run.
    rewrite (fetch_all_fulfilled cartItems w details Hall). cbn.
    repeat split; reflexivity.
  - intros Hrej. unfold run.
    rewrite fetch_with_rejection by exact Hrej. cbn.
    do 5 (split; [reflexivity|]).
    intros storage Hcart.
    unfold useEffect, bind, read_storage. cbn. rewrite Hcart.
    destruct cartItems as [|item rest].
    { destruct Hrej as (index & _ & Hlt & _). simpl in Hlt. lia. }
    destruct (stored_bookingData storage); cbn;
      rewrite fetch_with_rejection by exact Hrej;
      cbn; repeat split; reflexivity.
Qed.

(** C6, as the code has it: the page is sent home, and nothing is
    fetched, exactly when the stored cart is absent or empty; with a
    non-empty cart the fetch starts whether or not a booking draft is
    stored, and an absent draft only leaves [bookingData] as it was. *)
Theorem checkout_entry_depends_on_the_cart (w : World State) :
  let w' := run (useEffect replies) w in
  let store := localStorage w in
  (stored_cart store = None \/ stored_cart store = Some [] ->
     navigations w' = navigations w ++ [mkNavigation "/" None]
     /\ requests w' = requests w
     /\ cart (page w') = cart (page w))
  /\ (forall item rest,
        stored_cart store = Some (item :: rest) ->
        navigations w' = navigations w
        /\ requests w' = requests w ++ lookups (item :: rest)
        /\ cart (page w') = item :: rest)
  /\ (forall draft,
        stored_bookingData store = Some draft ->
        bookingData (page w') = Some draft)
  /\ (stored_bookingData store = None ->
        bookingData (page w') = bookingData (page w)).
Proof.
  cbv zeta. unfold run, useEffect, bind, read_storage. cbn.
  destruct (stored_cart (localStorage w)) as [[|item rest]|],
           (stored_bookingData (localStorage w)) as [draft|]; cbn;
    try match goal with
        | |- context [fetchCosmeticDetails replies ?c ?v] =>
            destruct (fetch_frame c v) as (page' & console' & -> & Hc & Hb);
            cbn; rewrite Hc, Hb; cbn
        end;
    repeat match goal with
           | |- _ /\ _ => split
           | |- forall _, _ => intro
           | H : _ \/ _ |- _ => destruct H
           | H : Some _ = Some _ |- _ => injection H as ?; subst
           | H : _ = _ |- _ => discriminate H
           end;
    reflexivity.
Qed.
End Checkout.

(** The theorem of C7 on a cart of three items whose second lookup is
    answered with a 500 while the other two are fulfilled: three requests
    are sent, and none of the two fetched details is kept. *)
Lemma failed_lookup_witness :
  let cart :=
    [CartItem.mk 1 "x" 2; CartItem.mk 7 "s" 3; CartItem.mk 9 "y" 1] in
  let replies := fun index : nat =>
    if Nat.eqb index 1 then @Rejected Cosmetic.t (AxiosError (Some 500%Z))
    else Fulfilled Sample.detail in
  let w := PaymentPage.mount (mkStorage (Some cart) (Some Sample.draft)) in
  let mounted := run (PaymentPage.useEffect replies) w in
  (exists index reason,
      index < List.length cart /\ replies index = Rejected reason)
  /\ replies 0 = Fulfilled Sample.detail
  /\ replies 2 = Fulfilled Sample.detail
  /\ requests (run (PaymentPage.fetchCosmeticDetails replies cart) w)
     = [GET "/cosmetic/x"; GET "/cosmetic/s"; GET "/cosmetic/y"]
  /\ PaymentPage.render
       (page (run (PaymentPage.fetchCosmeticDetails replies cart) w))
     = PaymentPage.ErrorView "Failed to fetch cosmetic details"
  /\ PaymentPage.cosmeticDetails (page mounted) = []
  /\ PaymentPage.FormData.cosmetic_ids (PaymentPage.formData (page mounted)) = []
  /\ requests mounted
     = [GET "/cosmetic/x"; GET "/cosmetic/s"; GET "/cosmetic/y"].
Proof.
  cbv zeta.
  set (cart := [CartItem.mk 1 "x" 2; CartItem.mk 7 "s" 3; CartItem.mk 9 "y" 1]).
  set (replies := fun index : nat =>
         if Nat.eqb index 1 then @Rejected Cosmetic.t (AxiosError (Some 500%Z))
         else Fulfilled Sample.detail).
  assert (Hrej : exists index reason,
             index < List.length cart /\ replies index = Rejected reason).
  { exists 1, (AxiosError (Some 500%Z)). split; [simpl; lia | reflexivity]. }
  split; [exact Hrej|]. split; [reflexivity|]. split; [reflexivity|].
  destruct (failed_lookup_fails_the_fetch
              replies cart
              (PaymentPage.mount (mkStorage (Some cart) (Some Sample.draft))))
    as ((Hreq & _ & _) & _ & Hfail).
  destruct (Hfail Hrej) as (_ & _ & Hview & _ & _ & Hmount).
  destruct (Hmount (mkStorage (Some cart) (Some Sample.draft)) eq_refl)
    as (Hdetails & Hids & _ & Hsent).
  split; [exact Hreq|]. split; [exact Hview|]. split; [exact Hdetails|].
  split; [exact Hids | exact Hsent].
Defined.

(** C6 as the specification states it fails: with a non-empty cart and no
    booking draft in storage the page stays on checkout, starts the fetch
    and renders the summary. *)
Lemma absent_draft_still_enters_checkout :
  let w := PaymentPage.mount (mkStorage (Some Sample.cart) None) in
  let w' := run (PaymentPage.useEffect (fun _ => Fulfilled Sample.detail)) w in
  has_key "cart" (localStorage w) = true
  /\ has_key "bookingData" (localStorage w) = false
  /\ navigations w' = []
  /\ requests w' = [GET "/cosmetic/x"]
  /\ PaymentPage.bookingData (page w') = None
  /\ PaymentPage.render (page w')
     = PaymentPage.SummaryView 2 200000 22000 222000 None false.
Proof.
  cbv zeta. repeat split; reflexivity.
Qed.

(** ** Order lookup *)

Section OrderLookup.
Import Zod MyOrdersPage.

Variable viewBookingSchema : Schema FormData.t.

Let lookup := handleSubmit viewBookingSchema.

Ltac step_lookup :=
  unfold run, completion, lookup, handleSubmit, try_finally, try_catch, bind,
    read_page, await, ret, throw, found, not_found; cbn.

(** C5, as the code has it: on a validated query, a 200 answer with the
    order navigates to the results view with the order and
    [notFound = false]; any other answer that is delivered (another
    status, or a 200 whose body has no [data]) and a request rejected with
    a 404 response navigate to the same view with a null payload and
    [notFound = true]; a request rejected in any other way (no response,
    another status, an error that is not an axios error) navigates
    nowhere. In every case the handler completes without throwing, has
    sent one request and leaves [loading] false. *)
Theorem lookup_navigates_on_answer_or_404
        (w : World State) (reply : Settled (AxiosResponse BookingDetails.t)) :
  safeParse viewBookingSchema (formData (page w)) = success ->
  let w' := run (lookup reply) w in
  let results st := [mkNavigation "/my-booking" st] in
  completion (lookup reply) w = Normal tt
  /\ loading (page w') = false
  /\ requests w'
     = requests w
       ++ [POST "/check-booking"
                (CheckBookingJson (FormData.email (formData (page w)))
                                  (FormData.booking_trx_id (formData (page w))))]
  /\ (forall details,
        reply = Fulfilled (mkResponse 200%Z (Envelope (Some details))) ->
        navigations w'
        = navigations w
          ++ results (Some (mkLocationState (Some details) false)))
  /\ (forall code body,
        reply = Fulfilled (mkResponse code body) ->
        code <> 200%Z \/ body = Envelope None ->
        navigations w'
        = navigations w ++ results (Some (mkLocationState None true)))
  /\ (reply = Rejected (AxiosError (Some 404%Z)) ->
        navigations w'
        = navigations w ++ results (Some (mkLocationState None true)))
  /\ (forall reason,
        reply = Rejected reason ->
        reason <> AxiosError (Some 404%Z) ->
        navigations w' = navigations w).
Proof.
  intros Hvalid w' results. subst w' results. step_lookup. rewrite Hvalid. cbn.
  destruct reply as [[code body]|reason]; cbn.
  - destruct (Z.eqb_spec code 200) as [->|Hcode]; cbn.
    + destruct body as [|[details|]]; cbn; repeat split;
        try reflexivity; intros; try congruence;
        try match goal with
            | H : _ \/ _ |- _ => destruct H; congruence
            end.
    + repeat split; try reflexivity; intros; congruence.
  - destruct reason as [[code|]| |]; cbn;
      try (repeat split; try reflexivity; intros; congruence).
    destruct (Z.eqb_spec code 404) as [->|Hcode]; cbn;
      repeat split; try reflexivity; intros; congruence.
Qed.
End OrderLookup.

(** The theorem of C5 on a sample query, answered with the order and with
    a 404. *)
Lemma lookup_witness :
  Zod.safeParse Sample.viewBookingSchema
                (MyOrdersPage.formData (page (Sample.lookup "a@b.com" "TRX1")))
  = Zod.success
  /\ navigations
       (run (MyOrdersPage.handleSubmit Sample.viewBookingSchema
               (Fulfilled (mkResponse 200%Z (Envelope (Some Sample.order)))))
            (Sample.lookup "a@b.com" "TRX1"))
     = [mkNavigation "/my-booking"
          (Some (mkLocationState (Some Sample.order) false))]
  /\ navigations
       (run (MyOrdersPage.handleSubmit Sample.viewBookingSchema
               (Rejected (AxiosError (Some 404%Z))))
            (Sample.lookup "a@b.com" "TRX1"))
     = [mkNavigation "/my-booking" (Some (mkLocationState None true))].
Proof.
  split; [reflexivity|]. split.
  - destruct (lookup_navigates_on_answer_or_404 Sample.viewBookingSchema
                (Sample.lookup "a@b.com" "TRX1")
                (Fulfilled (mkResponse 200%Z (Envelope (Some Sample.order))))
                eq_refl)
      as (_ & _ & _ & Hfound & _).
    exact (Hfound Sample.order eq_refl).
  - destruct (lookup_navigates_on_answer_or_404 Sample.viewBookingSchema
                (Sample.lookup "a@b.com" "TRX1")
                (Rejected (AxiosError (Some 404%Z))) eq_refl)
      as (_ & _ & _ & _ & _ & H404 & _).
    exact (H404 eq_refl).
Defined.

(** C5 as the specification states it fails: a request that fails without a
    response, or with a status other than 404, navigates nowhere. *)
Lemma failed_lookup_does_not_navigate :
  let w := Sample.lookup "a@b.com" "TRX1" in
  let after reason :=
    run (MyOrdersPage.handleSubmit Sample.viewBookingSchema (Rejected reason)) w in
  Zod.safeParse Sample.viewBookingSchema (MyOrdersPage.formData (page w))
  = Zod.success
  /\ navigations (after (AxiosError None)) = []
  /\ navigations (after (AxiosError (Some 500%Z))) = []
  /\ navigations (after (AxiosError None))
     <> [mkNavigation "/my-booking" (Some (mkLocationState None true))].
Proof.
  cbv zeta. repeat split; try reflexivity. discriminate.
Qed.

(** ** Validation before any request *)

Section Validation.
Import Zod.

Lemma shown_message_first (field : string) (before after : list ZodIssue)
      (issue : ZodIssue) :
  path_includes field issue = true ->
  (forall earlier, In earlier before -> path_includes field earlier = false) ->
  shown_message (before ++ issue :: after) field = Some (message issue).
Proof.
  intros Hissue Hbefore. unfold shown_message.
  induction before as [|e before IH]; simpl.
  - now rewrite Hissue.
  - rewrite (Hbefore e (or_introl eq_refl)). apply IH.
    intros earlier Hin. apply Hbefore. now right.
Qed.

(** C8: when the input fails its schema, either handler only stores the
    issues as field errors: no request is sent, storage, router and every
    other piece of state stay as they were, and under each field the form
    shows the first issue on that field. A payment submission without a
    proof file and a lookup with an invalid email fail their schemas; a
    submission with a proof file, with a contact draft on the page, passes
    and goes on to send its request. *)
Theorem invalid_input_only_sets_field_errors :
  (forall String_of_number (schema : Schema PaymentPage.FormData.t)
          (w : World PaymentPage.State) issues reply,
      safeParse schema (PaymentPage.formData (page w)) = failure issues ->
      PaymentPage.handleSubmit String_of_number schema reply w
      = (Normal tt,
         mkWorld
           (PaymentPage.mkState
              (PaymentPage.formData (page w)) (PaymentPage.cart (page w))
              (PaymentPage.cosmeticDetails (page w))
              (PaymentPage.bookingData (page w)) issues
              (PaymentPage.loading (page w))
              (PaymentPage.successMessage (page w))
              (PaymentPage.error (page w)) (PaymentPage.fileName (page w)))
           (localStorage w) (navigations w) (requests w) (console w)))
  /\ (forall (schema : Schema MyOrdersPage.FormData.t)
             (w : World MyOrdersPage.State) issues reply,
        safeParse schema (MyOrdersPage.formData (page w)) = failure issues ->
        MyOrdersPage.handleSubmit schema reply w
        = (Normal tt,
           mkWorld
             (MyOrdersPage.mkState (MyOrdersPage.formData (page w)) issues
                                   (MyOrdersPage.loading (page w)))
             (localStorage w) (navigations w) (requests w) (console w)))
  /\ (forall field before issue after,
        path_includes field issue = true ->
        (forall earlier, In earlier before ->
           path_includes field earlier = false) ->
        shown_message (before ++ issue :: after) field = Some (message issue))
  /\ (forall ids,
        exists issues,
          safeParse ValidationBooking.paymentSchema
                    (PaymentPage.FormData.mk None ids) = failure issues
          /\ shown_message issues "proof" <> None)
  /\ (forall valid_booking_trx_id valid_email formData,
        valid_email (MyOrdersPage.FormData.email formData) = false ->
        exists issues,
          safeParse
            (ValidationBooking.viewBookingSchema valid_booking_trx_id valid_email)
            formData = failure issues
          /\ shown_message issues "email" <> None)
  /\ (forall String_of_number (w : World PaymentPage.State) file ids draft reply,
        PaymentPage.formData (page w) = PaymentPage.FormData.mk (Some file) ids ->
        PaymentPage.bookingData (page w) = Some draft ->
        safeParse ValidationBooking.paymentSchema (PaymentPage.formData (page w))
        = success
        /\ requests
             (run (PaymentPage.handleSubmit String_of_number
                     ValidationBooking.paymentSchema reply) w)
           = requests w
             ++ [POST "/booking-transaction"
                   (Multipart
                      (PaymentPage.submissionData_of String_of_number
                         (PaymentPage.FormData.mk (Some file) ids)
                         (Some draft)))]).
Proof.
  split; [|split; [|split; [|split; [|split]]]].
  - intros String_of_number schema w issues reply Hfail.
    unfold PaymentPage.handleSubmit, bind, read_page. now rewrite Hfail.
  - intros schema w issues reply Hfail.
    unfold MyOrdersPage.handleSubmit, bind, read_page. now rewrite Hfail.
  - intros field before issue after. apply shown_message_first.
  - intros ids. eexists. split; [reflexivity|]. discriminate.
  - intros valid_id valid_email formData Hbad. cbn. rewrite Hbad. cbn.
    eexists. split; [reflexivity|]. discriminate.
  - intros String_of_number w file ids draft reply Hform Hdraft.
    assert (Hvalid : safeParse ValidationBooking.paymentSchema
                               (PaymentPage.formData (page w)) = success)
      by now rewrite Hform.
    split; [exact Hvalid|].
    rewrite (valid_submission_sends_once String_of_number _ w reply Hvalid).
    now rewrite Hform, Hdraft.
Qed.
End Validation.

(** The theorem of C8 on a submission without a file and on a lookup with
    the email [not-an-email]. *)
Lemma invalid_input_witness :
  Zod.safeParse ValidationBooking.paymentSchema
                (PaymentPage.formData (page Sample.no_file))
  = Zod.failure [Zod.mkIssue ["proof"] "Proof of payment is required"]
  /\ requests
       (run (PaymentPage.handleSubmit Sample.integer_text
               ValidationBooking.paymentSchema (Rejected OtherError))
            Sample.no_file) = []
  /\ localStorage
       (run (PaymentPage.handleSubmit Sample.integer_text
               ValidationBooking.paymentSchema (Rejected OtherError))
            Sample.no_file) = Sample.storage
  /\ Sample.has_at "not-an-email" = false
  /\ requests
       (run (MyOrdersPage.handleSubmit Sample.viewBookingSchema
               (Rejected OtherError))
            (Sample.lookup "not-an-email" "TRX1")) = []
  /\ Zod.shown_message
       (MyOrdersPage.formErrors
          (page (run (MyOrdersPage.handleSubmit Sample.viewBookingSchema
                        (Rejected OtherError))
                     (Sample.lookup "not-an-email" "TRX1"))))
       "email" = Some "Invalid email address".
Proof.
  destruct invalid_input_only_sets_field_errors as (Hpay & Hlookup & _).
  split; [reflexivity|].
  unfold run.
  rewrite (Hpay Sample.integer_text ValidationBooking.paymentSchema
                Sample.no_file _ (Rejected OtherError) eq_refl).
  rewrite (Hlookup Sample.viewBookingSchema
                   (Sample.lookup "not-an-email" "TRX1") _
                   (Rejected OtherError) eq_refl).
  repeat split; reflexivity.
Defined.

(** * Further properties of the pages *)

(** ** Pricing at the edges *)

Section PricingEdges.
Import PaymentPage PricingSpec CartLines.
Local Open Scope float_scope.

Lemma sum_of_zeros {A : Type} (l : list A) :
  sum (map (fun _ => 0) l) = 0.
Proof.
  unfold sum. induction l as [|x l IH]; simpl; [reflexivity|].
  change (0 + 0) with 0. exact IH.
Qed.

(** X1: while nothing is fetched (before the lookups answer, or after they
    failed) and for an empty cart, subtotal, tax and total are all 0,
    whatever the other list holds; an empty cart has total quantity 0. *)
Theorem nothing_to_price_gives_zero
        (cart : list CartItem.t) (details : list Cosmetic.t) :
  subtotal cart [] = 0 /\ tax cart [] = 0 /\ total cart [] = 0
  /\ subtotal [] details = 0 /\ tax [] details = 0 /\ total [] details = 0
  /\ totalQuantity [] = 0.
Proof.
  assert (Hempty : subtotal [] details = 0).
  { rewrite subtotal_line_amounts. apply sum_of_zeros. }
  unfold total, tax. rewrite Hempty. repeat split; reflexivity.
Qed.

Lemma first_with_id_found_early (id : number) (front rest rest' : list CartItem.t) :
  (exists item, In item front
                /\ PrimFloat.eqb (CartItem.cosmetic_id item) id = true) ->
  first_with_id id (front ++ rest) = first_with_id id (front ++ rest').
Proof.
  intros (item & Hin & Hid).
  induction front as [|x front IH]; [destruct Hin|]. simpl.
  destruct (PrimFloat.eqb (CartItem.cosmetic_id x) id) eqn:Hx; [reflexivity|].
  destruct Hin as [->|Hin]; [congruence|]. now apply IH.
Qed.

(** X2: when a cart item repeats the [cosmetic_id] of an earlier item,
    its own quantity never enters the subtotal: the subtotal is the same
    whatever quantity (and slug) the later item has, and a detail with
    that id, the one fetched for the later item included, is priced at
    the quantity of the first item with the id; the later item's quantity
    is still added into the total quantity. *)
Theorem duplicate_is_priced_at_the_first_quantity
        (before middle back : list CartItem.t) (item duplicate : CartItem.t) :
  CartItem.cosmetic_id duplicate = CartItem.cosmetic_id item ->
  let front := before ++ item :: middle in
  let cart := front ++ duplicate :: back in
  (forall details slug quantity,
      subtotal cart details
      = subtotal
          (front ++ CartItem.mk (CartItem.cosmetic_id duplicate) slug quantity
                 :: back)
          details)
  /\ (forall detail,
        PrimFloat.eqb (CartItem.cosmetic_id duplicate) (Cosmetic.id detail)
        = true ->
        (forall earlier, In earlier before ->
           PrimFloat.eqb (CartItem.cosmetic_id earlier) (Cosmetic.id detail)
           = false) ->
        line_amount cart detail = Cosmetic.price detail * CartItem.quantity item)
  /\ totalQuantity cart
     = fold_left (fun acc later => acc + CartItem.quantity later) back
                 (totalQuantity front + CartItem.quantity duplicate).
Proof.
  intros Hsame front cart. subst front cart. split; [|split].
  - intros details slug quantity.
    rewrite !subtotal_line_amounts. apply sum_map_ext_in.
    intros detail _. unfold line_amount.
    destruct (PrimFloat.eqb (CartItem.cosmetic_id duplicate) (Cosmetic.id detail))
      eqn:Hdup.
    + rewrite (first_with_id_found_early _ (before ++ item :: middle)
                 (duplicate :: back)
                 (CartItem.mk (CartItem.cosmetic_id duplicate) slug quantity
                  :: back));
        [reflexivity|].
      exists item. split; [apply in_elt|]. now rewrite <- Hsame.
    + rewrite !first_with_id_skip by exact Hdup. reflexivity.
  - intros detail Hdup Hbefore. unfold line_amount.
    rewrite <- app_assoc. simpl.
    rewrite (first_with_id_first _ before _ item);
      [reflexivity | now rewrite <- Hsame | exact Hbefore].
  - unfold totalQuantity. now rewrite fold_left_app.
Qed.

Lemma earlier_lines_differ (lines : list (CartItem.t * Cosmetic.t)) :
  ForallOrdPairs other_product lines ->
  forall line, In line lines ->
    exists front back,
      lines = front ++ line :: back
      /\ forall earlier, In earlier front -> other_product earlier line.
Proof.
  induction 1 as [|first rest Hfirst Hrest IH]; intros line Hin; [destruct Hin|].
  destruct Hin as [->|Hin].
  - exists [], rest. split; [reflexivity|]. intros earlier [].
  - destruct (IH line Hin) as (front & back & -> & Hfront).
    exists (first :: front), back. split; [reflexivity|].
    intros earlier [<-|Hearlier]; [|now apply Hfront].
    rewrite Forall_forall in Hfirst. apply Hfirst, in_elt.
Qed.

(** X3: when every cart item has its own detail (the detail carries the
    item's id, a number equal to itself) and no two cart items share an
    id, the subtotal is the sum over the cart, in order, of the detail's
    price times the item's quantity. *)
Theorem matching_details_price_every_item
        (lines : list (CartItem.t * Cosmetic.t)) :
  Forall fetched_for lines ->
  ForallOrdPairs other_product lines ->
  subtotal (map fst lines) (map snd lines)
  = sum (map (fun line =>
                Cosmetic.price (snd line) * CartItem.quantity (fst line))
             lines).
Proof.
  intros Hfetched Hdistinct.
  rewrite subtotal_line_amounts, map_map. apply sum_map_ext_in.
  intros line Hin.
  destruct (earlier_lines_differ lines Hdistinct line Hin)
    as (front & back & Hsplit & Hfront).
  rewrite Forall_forall in Hfetched.
  destruct (Hfetched line Hin) as [Hid Hself].
  unfold line_amount.
  rewrite Hsplit at 1. rewrite map_app. simpl map.
  rewrite (first_with_id_first _ (map fst front) (map fst back) (fst line));
    [reflexivity | now rewrite Hid |].
  intros earlier Hearlier. apply in_map_iff in Hearlier.
  destruct Hearlier as (pair & <- & Hpair).
  rewrite Hid. now apply Hfront.
Qed.
End PricingEdges.

(** The theorem of X2 on a cart that lists product 1 twice, with the detail
    fetched for each of its two items: both details are priced at the
    first quantity, 2, and the total quantity is 5. *)
Lemma duplicate_quantity_witness :
  let first := CartItem.mk 1 "x" 2 in
  let again := CartItem.mk 1 "x" 3 in
  CartItem.cosmetic_id again = CartItem.cosmetic_id first
  /\ PaymentPage.subtotal [first; again] [Sample.detail; Sample.detail]
     = PaymentPage.subtotal [first; CartItem.mk 1 "x" 7]
                            [Sample.detail; Sample.detail]
  /\ PaymentPage.subtotal [first; again] [Sample.detail; Sample.detail]
     = 400000%float
  /\ PricingSpec.line_amount [first; again] Sample.detail = 200000%float
  /\ PaymentPage.totalQuantity [first; again] = 5%float
  /\ PaymentPage.render
       (page (run (PaymentPage.useEffect (fun _ => Fulfilled Sample.detail))
                  (PaymentPage.mount (mkStorage (Some [first; again]) None))))
     = PaymentPage.SummaryView 5 400000 44000 444000 None false.
Proof.
  cbv zeta. split; [reflexivity|].
  destruct (duplicate_is_priced_at_the_first_quantity
              [] [] [] (CartItem.mk 1 "x" 2) (CartItem.mk 1 "x" 3) eq_refl)
    as (Hquantity & Hline & Htotal).
  split; [exact (Hquantity [Sample.detail; Sample.detail] "x" 7%float)|].
  split; [reflexivity|].
  split; [exact (Hline Sample.detail eq_refl (fun _ absurd => match absurd with end))|].
  split; [exact Htotal | reflexivity].
Defined.

(** The theorem of X3 on a cart of two products with their details. *)
Lemma matching_details_witness :
  let serum := (CartItem.mk 7 "s" 3, Cosmetic.mk 7 5000 0 "Serum" "s" true "" "") in
  let lines := [(CartItem.mk 1 "x" 2, Sample.detail); serum] in
  Forall CartLines.fetched_for lines
  /\ ForallOrdPairs CartLines.other_product lines
  /\ PaymentPage.subtotal (map fst lines) (map snd lines) = 215000%float.
Proof.
  cbv zeta.
  assert (Hfetched :
            Forall CartLines.fetched_for
              [(CartItem.mk 1 "x" 2, Sample.detail);
               (CartItem.mk 7 "s" 3, Cosmetic.mk 7 5000 0 "Serum" "s" true "" "")]).
  { repeat constructor. }
  assert (Hdistinct :
            ForallOrdPairs CartLines.other_product
              [(CartItem.mk 1 "x" 2, Sample.detail);
               (CartItem.mk 7 "s" 3, Cosmetic.mk 7 5000 0 "Serum" "s" true "" "")]).
  { repeat constructor. }
  split; [exact Hfetched|]. split; [exact Hdistinct|].
  etransitivity.
  - exact (matching_details_price_every_item _ Hfetched Hdistinct).
  - reflexivity.
Defined.

(** ** Payment submission, answer by answer *)

Section SubmissionAnswers.
Import Zod PaymentPage.

Variable String_of_number : number -> string.
Variable paymentSchema : Schema FormData.t.

Let submit := handleSubmit String_of_number paymentSchema.

(** The request of a submission from the state rendered in [w]. *)
Let request_of (w : World State) : Request :=
  POST "/booking-transaction"
       (Multipart (submissionData_of String_of_number (formData (page w))
                                     (bookingData (page w)))).

(** The world after a submission that was sent and not accepted: the field
    errors are emptied, [loading] is false, [message] is logged. *)
Let not_accepted (w : World State) (message : string) : World State :=
  mkWorld
    (mkState (formData (page w)) (cart (page w)) (cosmeticDetails (page w))
             (bookingData (page w)) [] false (successMessage (page w))
             (error (page w)) (fileName (page w)))
    (localStorage w) (navigations w) (requests w ++ [request_of w])
    (console w ++ [message]).

Ltac open_submit :=
  unfold submit, handleSubmit, data_of, try_catch, bind, read_page, await, ret,
    throw; cbn.

Lemma rejected_submission_world (w : World State) (reason : JsError) :
  safeParse paymentSchema (formData (page w)) = success ->
  submit (Rejected reason) w
  = (Normal tt, not_accepted w "Error submitting payment proof").
Proof.
  intros Hvalid. open_submit. now rewrite Hvalid.
Qed.

Lemma accepted_submission_world
      (w : World State) (code : Z) (data : TransactionData) :
  safeParse paymentSchema (formData (page w)) = success ->
  code = 200%Z \/ code = 201%Z ->
  submit (Fulfilled (mkResponse code (Envelope (Some data)))) w
  = (Normal tt,
     mkWorld
       (mkState (FormData.mk None []) (cart (page w)) (cosmeticDetails (page w))
                (bookingData (page w)) [] false
                (Some "Payment proof uploaded successfully")
                (error (page w)) (fileName (page w)))
       (mkStorage None None)
       (navigations w
        ++ [mkNavigation ("/booking-finished?trx_id="
                            ++ text_of (booking_trx_id data)
                            ++ "&email=" ++ text_of (email data))%string None])
       (requests w ++ [request_of w])
       (console w
        ++ if truthy (booking_trx_id data) then []
           else ["Error: booking_trx_id is undefined"])).
Proof.
  intros Hvalid Hcode. open_submit. rewrite Hvalid.
  destruct Hcode; subst code; cbn; destruct (truthy (booking_trx_id data)); cbn;
    rewrite ?app_nil_r; reflexivity.
Qed.

Lemma unexpected_status_world
      (w : World State) (code : Z) (body : ResponseData TransactionData) :
  safeParse paymentSchema (formData (page w)) = success ->
  code <> 200%Z -> code <> 201%Z ->
  submit (Fulfilled (mkResponse code body)) w
  = (Normal tt, not_accepted w "Unexpected response status").
Proof.
  intros Hvalid H200 H201. open_submit. rewrite Hvalid. cbn.
  apply Z.eqb_neq in H200, H201. now rewrite H200, H201.
Qed.

Lemma unreadable_answer_world
      (w : World State) (code : Z) (body : ResponseData TransactionData) :
  safeParse paymentSchema (formData (page w)) = success ->
  code = 200%Z \/ code = 201%Z ->
  body = NoBody \/ body = Envelope None ->
  submit (Fulfilled (mkResponse code body)) w
  = (Normal tt, not_accepted w "Error submitting payment proof").
Proof.
  intros Hvalid Hcode Hbody. open_submit. rewrite Hvalid.
  destruct Hcode; subst code; destruct Hbody; subst body; reflexivity.
Qed.

(** X4: an answer with a status other than 200 and 201 is only logged: the
    submission, the storage and the router stay as they were, the field
    errors are emptied, [loading] is false and nothing is sent again. *)
Theorem unexpected_status_keeps_everything
        (w : World State) (code : Z) (body : ResponseData TransactionData) :
  safeParse paymentSchema (formData (page w)) = success ->
  code <> 200%Z -> code <> 201%Z ->
  let w' := run (submit (Fulfilled (mkResponse code body))) w in
  completion (submit (Fulfilled (mkResponse code body))) w = Normal tt
  /\ formData (page w') = formData (page w)
  /\ fileName (page w') = fileName (page w)
  /\ successMessage (page w') = successMessage (page w)
  /\ formErrors (page w') = []
  /\ loading (page w') = false
  /\ localStorage w' = localStorage w
  /\ navigations w' = navigations w
  /\ requests w' = requests w ++ [request_of w]
  /\ console w' = console w ++ ["Unexpected response status"].
Proof.
  intros Hvalid H200 H201. cbv zeta. unfold run, completion.
  rewrite (unexpected_status_world w code body Hvalid H200 H201).
  repeat split; reflexivity.
Qed.

(** X5: a 200 or 201 answer whose body is null, or has no [data], is
    handled exactly as a request that failed: reading the transaction id
    throws into the same catch block, and nothing is cleared. *)
Theorem unreadable_answer_is_a_failed_request
        (w : World State) (code : Z) (body : ResponseData TransactionData)
        (reason : JsError) :
  safeParse paymentSchema (formData (page w)) = success ->
  code = 200%Z \/ code = 201%Z ->
  body = NoBody \/ body = Envelope None ->
  submit (Fulfilled (mkResponse code body)) w = submit (Rejected reason) w
  /\ localStorage (run (submit (Fulfilled (mkResponse code body))) w)
     = localStorage w
  /\ navigations (run (submit (Fulfilled (mkResponse code body))) w)
     = navigations w
  /\ formData (page (run (submit (Fulfilled (mkResponse code body))) w))
     = formData (page w).
Proof.
  intros Hvalid Hcode Hbody. unfold run.
  rewrite (rejected_submission_world w reason Hvalid).
  rewrite (unreadable_answer_world w code body Hvalid Hcode Hbody).
  repeat split; reflexivity.
Qed.

(** X6: whatever the schema says and whatever the network answers, the
    handler completes without throwing, leaves the cart, the fetched
    details, the draft, the page error and the file name alone, sends at
    most the one request, and either keeps the storage or empties both of
    its keys. *)
Theorem submission_never_throws
        (w : World State) (reply : Settled (AxiosResponse TransactionData)) :
  let w' := run (submit reply) w in
  completion (submit reply) w = Normal tt
  /\ cart (page w') = cart (page w)
  /\ cosmeticDetails (page w') = cosmeticDetails (page w)
  /\ bookingData (page w') = bookingData (page w)
  /\ error (page w') = error (page w)
  /\ fileName (page w') = fileName (page w)
  /\ (requests w' = requests w \/ requests w' = requests w ++ [request_of w])
  /\ (localStorage w' = localStorage w \/ localStorage w' = mkStorage None None).
Proof.
  cbv zeta. unfold run, completion.
  destruct (safeParse paymentSchema (formData (page w))) as [|issues] eqn:Hparse.
  - destruct reply as [[code body]|reason].
    + assert (Hcases : ((code = 200 \/ code = 201)
                        \/ (code <> 200 /\ code <> 201))%Z) by lia.
      destruct Hcases as [Hcode|[H200 H201]].
      * destruct body as [|[data|]].
        -- rewrite (unreadable_answer_world w code NoBody Hparse Hcode
                      (or_introl eq_refl)).
           cbn. repeat split; auto.
        -- rewrite (accepted_submission_world w code data Hparse Hcode).
           cbn. repeat split; auto.
        -- rewrite (unreadable_answer_world w code (Envelope None) Hparse Hcode
                      (or_intror eq_refl)).
           cbn. repeat split; auto.
      * rewrite (unexpected_status_world w code body Hparse H200 H201).
        cbn. repeat split; auto.
    + rewrite (rejected_submission_world w reason Hparse).
      cbn. repeat split; auto.
  - open_submit. rewrite Hparse. cbn. repeat split; auto.
Qed.

(** X7: after a failed request the same submission can be sent again as it
    is: it still passes the schema, the second request carries the same
    body as the first, and an accepting answer then clears the storage and
    navigates to the confirmation. *)
Theorem failed_submission_can_be_resent
        (w : World State) (reason : JsError) (code : Z) (trx_id email : string) :
  safeParse paymentSchema (formData (page w)) = success ->
  code = 200%Z \/ code = 201%Z ->
  let failed := run (submit (Rejected reason)) w in
  let reply :=
    Fulfilled (mkResponse code
      (Envelope (Some (mkTransactionData (Some trx_id) (Some email))))) in
  let resent := run (submit reply) failed in
  safeParse paymentSchema (formData (page failed)) = success
  /\ requests resent = requests w ++ [request_of w; request_of w]
  /\ localStorage resent = mkStorage None None
  /\ navigations resent
     = navigations w
       ++ [mkNavigation ("/booking-finished?trx_id=" ++ trx_id
                           ++ "&email=" ++ email)%string None].
Proof.
  intros Hvalid Hcode. cbv zeta. unfold run.
  rewrite (rejected_submission_world w reason Hvalid). simpl snd.
  assert (Hstill : safeParse paymentSchema
                     (formData (page (not_accepted
                                        w "Error submitting payment proof")))
                   = success) by exact Hvalid.
  split; [exact Hstill|].
  rewrite (accepted_submission_world _ code _ Hstill Hcode). cbn.
  rewrite <- app_assoc. repeat split; reflexivity.
Qed.

(** X8: once a submission is accepted the form is empty, so when the
    schema refuses an empty form a second submit sends nothing, navigates
    nowhere and only sets the field errors. *)
Theorem accepted_submission_is_not_sent_twice
        (w : World State) (code : Z) (data : TransactionData)
        (issues : list ZodIssue)
        (again : Settled (AxiosResponse TransactionData)) :
  safeParse paymentSchema (formData (page w)) = success ->
  code = 200%Z \/ code = 201%Z ->
  safeParse paymentSchema (FormData.mk None []) = failure issues ->
  let accepted :=
    run (submit (Fulfilled (mkResponse code (Envelope (Some data))))) w in
  let second := run (submit again) accepted in
  requests second = requests w ++ [request_of w]
  /\ navigations second = navigations accepted
  /\ formErrors (page second) = issues
  /\ localStorage second = mkStorage None None.
Proof.
  intros Hvalid Hcode Hempty. cbv zeta. unfold run.
  rewrite (accepted_submission_world w code data Hvalid Hcode). simpl snd.
  open_submit. rewrite Hempty. cbn. repeat split; reflexivity.
Qed.
End SubmissionAnswers.

(** The theorem of X4 on the sample checkout, answered with a 204. *)
Lemma unexpected_status_witness :
  Zod.safeParse ValidationBooking.paymentSchema
                (PaymentPage.formData (page Sample.checkout))
  = Zod.success
  /\ 204%Z <> 200%Z /\ 204%Z <> 201%Z
  /\ let w' :=
       run (PaymentPage.handleSubmit Sample.integer_text
              ValidationBooking.paymentSchema
              (Fulfilled (mkResponse 204%Z NoBody)))
           Sample.checkout in
     localStorage w' = Sample.storage
     /\ navigations w' = []
     /\ console w' = ["Unexpected response status"].
Proof.
  split; [reflexivity|]. split; [discriminate|]. split; [discriminate|].
  destruct (unexpected_status_keeps_everything
              Sample.integer_text ValidationBooking.paymentSchema
              Sample.checkout 204 NoBody eq_refl
              ltac:(discriminate) ltac:(discriminate))
    as (_ & _ & _ & _ & _ & _ & Hstore & Hnav & _ & Hlog).
  cbv zeta. split; [exact Hstore|]. split; [exact Hnav | exact Hlog].
Defined.

(** The theorem of X5 on the sample checkout, answered with a 200 whose
    body has no [data]. *)
Lemma unreadable_answer_witness :
  Zod.safeParse ValidationBooking.paymentSchema
                (PaymentPage.formData (page Sample.checkout))
  = Zod.success
  /\ (200 = 200 \/ 200 = 201)%Z
  /\ (@Envelope PaymentPage.TransactionData None = NoBody
      \/ @Envelope PaymentPage.TransactionData None = Envelope None)
  /\ localStorage
       (run (PaymentPage.handleSubmit Sample.integer_text
               ValidationBooking.paymentSchema
               (Fulfilled (mkResponse 200%Z (Envelope None))))
            Sample.checkout)
     = Sample.storage.
Proof.
  split; [reflexivity|]. split; [now left|]. split; [now right|].
  destruct (unreadable_answer_is_a_failed_request
              Sample.integer_text ValidationBooking.paymentSchema
              Sample.checkout 200 (Envelope None) OtherError eq_refl
              (or_introl eq_refl) (or_intror eq_refl))
    as (_ & Hstore & _).
  exact Hstore.
Defined.

(** The theorem of X7 on the sample checkout: a network failure, then the
    same submission answered with [TRX1]. *)
Lemma resent_submission_witness :
  Zod.safeParse ValidationBooking.paymentSchema
                (PaymentPage.formData (page Sample.checkout))
  = Zod.success
  /\ (201 = 200 \/ 201 = 201)%Z
  /\ let submit :=
       PaymentPage.handleSubmit Sample.integer_text
                                ValidationBooking.paymentSchema in
     let failed := run (submit (Rejected (AxiosError None))) Sample.checkout in
     let resent :=
       run (submit (Fulfilled (mkResponse 201%Z
                      (Envelope (Some (PaymentPage.mkTransactionData
                                         (Some "TRX1") (Some "a@b.com")))))))
           failed in
     List.length (requests resent) = 2
     /\ navigations resent
        = [mkNavigation "/booking-finished?trx_id=TRX1&email=a@b.com" None].
Proof.
  split; [reflexivity|]. split; [now right|].
  destruct (failed_submission_can_be_resent
              Sample.integer_text ValidationBooking.paymentSchema
              Sample.checkout (AxiosError None) 201 "TRX1" "a@b.com"
              eq_refl (or_intror eq_refl))
    as (_ & Hsent & _ & Hnav).
  cbv zeta. split; [|exact Hnav].
  exact (f_equal (@List.length Request) Hsent).
Defined.

(** The theorem of X8 on the sample checkout, submitted twice. *)
Lemma second_submission_witness :
  Zod.safeParse ValidationBooking.paymentSchema
                (PaymentPage.formData (page Sample.checkout))
  = Zod.success
  /\ (200 = 200 \/ 200 = 201)%Z
  /\ Zod.safeParse ValidationBooking.paymentSchema
                   (PaymentPage.FormData.mk None [])
     = Zod.failure [Zod.mkIssue ["proof"] "Proof of payment is required"]
  /\ let submit :=
       PaymentPage.handleSubmit Sample.integer_text
                                ValidationBooking.paymentSchema in
     let answer :=
       Fulfilled (mkResponse 200%Z
         (Envelope (Some (PaymentPage.mkTransactionData
                            (Some "TRX1") (Some "a@b.com"))))) in
     let second := run (submit answer) (run (submit answer) Sample.checkout) in
     List.length (requests second) = 1
     /\ Zod.shown_message (PaymentPage.formErrors (page second)) "proof"
        = Some "Proof of payment is required".
Proof.
  split; [reflexivity|]. split; [now left|]. split; [reflexivity|].
  destruct (accepted_submission_is_not_sent_twice
              Sample.integer_text ValidationBooking.paymentSchema
              Sample.checkout 200
              (PaymentPage.mkTransactionData (Some "TRX1") (Some "a@b.com"))
              [Zod.mkIssue ["proof"] "Proof of payment is required"]
              (Fulfilled (mkResponse 200%Z
                 (Envelope (Some (PaymentPage.mkTransactionData
                                    (Some "TRX1") (Some "a@b.com"))))))
              eq_refl (or_introl eq_refl) eq_refl)
    as (Hsent & _ & Herrors & _).
  cbv zeta. split.
  - exact (f_equal (@List.length Request) Hsent).
  - exact (f_equal (fun errors => Zod.shown_message errors "proof") Herrors).
Defined.

(** ** The multipart body *)

Section Payload.
Import PaymentPage.

Variable String_of_number : number -> string.

(** The two parts of the pair at [index]. *)
Let parts_of (index : nat) (item : IdQuantity.t)
  : list (string * FormDataEntryValue) :=
  [(("cosmetic_ids[" ++ index_text index ++ "][id]")%string,
    TextValue (String_of_number (IdQuantity.id item)));
   (("cosmetic_ids[" ++ index_text index ++ "][quantity]")%string,
    TextValue (String_of_number (IdQuantity.quantity item)))].

Lemma flat_mapi_nth_error {A B : Type} (f : nat -> A -> list B) (l : list A) :
  forall (start index : nat) (item : A),
    nth_error l index = Some item ->
    incl (f (start + index) item) (flat_mapi f start l).
Proof.
  induction l as [|x l IH]; intros start [|index] item Hnth; simpl in Hnth;
    try discriminate.
  - injection Hnth as ->. rewrite Nat.add_0_r. simpl. apply incl_appl, incl_refl.
  - simpl. apply incl_appr. rewrite <- Nat.add_succ_comm. now apply IH.
Qed.

Lemma flat_mapi_pairs_length {A B : Type} (f : nat -> A -> list B) (l : list A) :
  (forall index item, List.length (f index item) = 2) ->
  forall start, List.length (flat_mapi f start l) = 2 * List.length l.
Proof.
  intros Htwo. induction l as [|x l IH]; intros start; simpl; [reflexivity|].
  rewrite length_app, Htwo, IH. lia.
Qed.

Lemma to_uint_not_nil (n : nat) : Nat.to_uint n <> Decimal.Nil.
Proof.
  rewrite <- (DecimalNat.Unsigned.of_to n), DecimalNat.Unsigned.to_of.
  unfold Decimal.unorm. destruct (Decimal.nzhead _); discriminate.
Qed.

Lemma index_text_inj (i j : nat) : index_text i = index_text j -> i = j.
Proof.
  unfold index_text. intros Heq.
  apply DecimalNat.Unsigned.to_uint_inj.
  apply (f_equal NilZero.uint_of_string) in Heq.
  rewrite !NilZero.usu in Heq by apply to_uint_not_nil.
  now injection Heq.
Qed.

Lemma string_length_append (s t : string) :
  String.length (s ++ t) = String.length s + String.length t.
Proof.
  induction s as [|c s IH]; simpl; [reflexivity|]. now rewrite IH.
Qed.

Lemma string_append_cancel_r (s1 s2 t : string) :
  (s1 ++ t)%string = (s2 ++ t)%string -> s1 = s2.
Proof.
  revert s2. induction s1 as [|c s1 IH]; intros [|d s2] Heq; simpl in Heq.
  - reflexivity.
  - apply (f_equal String.length) in Heq. simpl in Heq.
    rewrite string_length_append in Heq. lia.
  - apply (f_equal String.length) in Heq. simpl in Heq.
    rewrite string_length_append in Heq. lia.
  - injection Heq as -> Heq. f_equal. now apply IH.
Qed.

(** X9: the pair at position [index] of [cosmetic_ids] is in the body under
    the names [cosmetic_ids[index][id]] and [cosmetic_ids[index][quantity]],
    with its id and quantity as text; pairs at different positions never
    share a name; and the body has one part for the file, six for the draft
    and two per pair, and no other. *)
Theorem every_pair_has_its_own_parts
        (formData : FormData.t) (bookingData : option BookingFormData.t) :
  let body := submissionData_of String_of_number formData bookingData in
  (forall index item,
      nth_error (FormData.cosmetic_ids formData) index = Some item ->
      In (("cosmetic_ids[" ++ index_text index ++ "][id]")%string,
          TextValue (String_of_number (IdQuantity.id item))) body
      /\ In (("cosmetic_ids[" ++ index_text index ++ "][quantity]")%string,
             TextValue (String_of_number (IdQuantity.quantity item))) body)
  /\ (forall i j member,
        ("cosmetic_ids[" ++ index_text i ++ "][" ++ member ++ "]")%string
        = ("cosmetic_ids[" ++ index_text j ++ "][" ++ member ++ "]")%string ->
        i = j)
  /\ List.length body
     = match FormData.proof formData with Some _ => 1 | None => 0 end
       + match bookingData with Some _ => 6 | None => 0 end
       + 2 * List.length (FormData.cosmetic_ids formData).
Proof.
  cbv zeta. split; [|split].
  - intros index item Hnth.
    pose proof (flat_mapi_nth_error parts_of _ 0 index item Hnth) as Hincl.
    unfold submissionData_of.
    split; apply in_or_app; right; apply in_or_app; right; apply Hincl;
      simpl; auto.
  - intros i j member Heq. apply index_text_inj.
    simpl in Heq. repeat (injection Heq as Heq).
    now apply string_append_cancel_r in Heq.
  - unfold submissionData_of. rewrite !length_app.
    rewrite (flat_mapi_pairs_length parts_of _ (fun _ _ => eq_refl)).
    destruct (FormData.proof formData), bookingData; reflexivity.
Qed.

(** X10: the file sent is the first of the files last chosen: choosing
    again replaces the earlier choice, the page shows the name of the
    chosen file, and a submission that passes the schema then carries that
    file as its [proof] part, ahead of the parts it would have had. *)
Theorem chosen_file_is_the_one_sent
        (paymentSchema : Zod.Schema FormData.t) (w : World State)
        (earlier : option (list File.t)) (first : File.t) (others : list File.t)
        (reply : Settled (AxiosResponse TransactionData)) :
  let ids := FormData.cosmetic_ids (formData (page w)) in
  Zod.safeParse paymentSchema (FormData.mk (Some first) ids) = Zod.success ->
  let chosen := run (handleChange (Some (first :: others))) w in
  run (handleChange (Some (first :: others))) (run (handleChange earlier) w)
  = chosen
  /\ formData (page chosen) = FormData.mk (Some first) ids
  /\ fileName (page chosen) = Some (File.name first)
  /\ requests (run (handleSubmit String_of_number paymentSchema reply) chosen)
     = requests w
       ++ [POST "/booking-transaction"
             (Multipart
                (("proof", FileValue first)
                 :: submissionData_of String_of_number (FormData.mk None ids)
                                      (bookingData (page w))))].
Proof.
  intros ids Hvalid chosen. subst ids chosen.
  split; [reflexivity|]. split; [reflexivity|]. split; [reflexivity|].
  rewrite valid_submission_sends_once by exact Hvalid. reflexivity.
Qed.
End Payload.

(** The theorem of X10 on the sample page before a file is chosen. *)
Lemma chosen_file_witness :
  let ids := PaymentPage.FormData.cosmetic_ids
               (PaymentPage.formData (page Sample.no_file)) in
  Zod.safeParse ValidationBooking.paymentSchema
                (PaymentPage.FormData.mk (Some Sample.receipt) ids)
  = Zod.success
  /\ let chosen :=
       run (PaymentPage.handleChange
              (Some [Sample.receipt; File.mk "other.pdf" "application/pdf"]))
           Sample.no_file in
     PaymentPage.fileName (page chosen) = Some "receipt.png"
     /\ page chosen = page Sample.checkout.
Proof.
  cbv zeta. split; [reflexivity|].
  destruct (chosen_file_is_the_one_sent
              Sample.integer_text ValidationBooking.paymentSchema Sample.no_file
              None Sample.receipt [File.mk "other.pdf" "application/pdf"]
              (Rejected OtherError) eq_refl)
    as (_ & _ & Hname & _).
  split; [exact Hname | reflexivity].
Defined.

(** ** A checkout that mounts with its details *)

Section MountedCheckout.
Import PaymentPage.

Variable replies : nat -> Settled Cosmetic.t.

(** X11: with a non-empty cart in storage and every lookup answered, the
    mounted page holds the cart, the details in cart order and one
    [cosmetic_ids] pair per cart item carrying its id and quantity; it
    shows the summary priced from them, has sent one lookup per item, has
    not navigated and has left the storage alone. *)
Theorem mounted_checkout_shows_the_summary
        (storage : Storage) (item : CartItem.t) (rest : list CartItem.t)
        (details : nat -> Cosmetic.t) :
  stored_cart storage = Some (item :: rest) ->
  (forall index, index < List.length (item :: rest) ->
     replies index = Fulfilled (details index)) ->
  let w' := run (useEffect replies) (mount storage) in
  let fetched := map details (seq 0 (List.length (item :: rest))) in
  completion (useEffect replies) (mount storage) = Normal tt
  /\ cart (page w') = item :: rest
  /\ cosmeticDetails (page w') = fetched
  /\ FormData.cosmetic_ids (formData (page w'))
     = map (fun cartItem =>
              IdQuantity.mk (CartItem.cosmetic_id cartItem)
                            (CartItem.quantity cartItem)) (item :: rest)
  /\ FormData.proof (formData (page w')) = None
  /\ bookingData (page w') = stored_bookingData storage
  /\ render (page w')
     = SummaryView (totalQuantity (item :: rest))
                   (subtotal (item :: rest) fetched)
                   (tax (item :: rest) fetched)
                   (total (item :: rest) fetched) None false
  /\ requests w' = lookups (item :: rest)
  /\ navigations w' = []
  /\ localStorage w' = storage.
Proof.
  intros Hcart Hall. cbv zeta. unfold run, completion.
  unfold useEffect, bind, read_storage. cbn. rewrite Hcart.
  destruct (stored_bookingData storage) as [draft|]; cbn;
    rewrite (fetch_all_fulfilled replies (item :: rest) _ details Hall);
    cbn; repeat split; reflexivity.
Qed.
End MountedCheckout.

(** The theorem of X11 on the sample storage. *)
Lemma mounted_checkout_witness :
  let replies := fun _ : nat => Fulfilled Sample.detail in
  stored_cart Sample.storage = Some Sample.cart
  /\ (forall index, index < List.length Sample.cart ->
        replies index = Fulfilled Sample.detail)
  /\ PaymentPage.render
       (page (run (PaymentPage.useEffect replies)
                  (PaymentPage.mount Sample.storage)))
     = PaymentPage.SummaryView 2 200000 22000 222000 None false.
Proof.
  cbv zeta. split; [reflexivity|]. split; [reflexivity|].
  destruct (mounted_checkout_shows_the_summary
              (fun _ => Fulfilled Sample.detail) Sample.storage
              (CartItem.mk 1 "x" 2) [] (fun _ => Sample.detail) eq_refl
              (fun index _ => eq_refl))
    as (_ & _ & _ & _ & _ & _ & Hview & _).
  exact Hview.
Defined.

(** ** The lookup form *)

Section LookupForm.
Import Zod MyOrdersPage.

Variable viewBookingSchema : Schema FormData.t.

Let lookup := handleSubmit viewBookingSchema.

(** X12: whatever the schema says and whatever the network answers, the
    lookup completes without throwing, keeps what was typed, never touches
    the storage or the console, sends at most its one request and
    navigates at most once, and then only to the results view. *)
Theorem lookup_never_throws
        (w : World State) (reply : Settled (AxiosResponse BookingDetails.t)) :
  let w' := run (lookup reply) w in
  completion (lookup reply) w = Normal tt
  /\ formData (page w') = formData (page w)
  /\ localStorage w' = localStorage w
  /\ console w' = console w
  /\ (requests w' = requests w
      \/ requests w'
         = requests w
           ++ [POST "/check-booking"
                 (CheckBookingJson (FormData.email (formData (page w)))
                    (FormData.booking_trx_id (formData (page w))))])
  /\ (navigations w' = navigations w
      \/ exists st,
           navigations w' = navigations w ++ [mkNavigation "/my-booking" (Some st)]).
Proof.
  cbv zeta.
  unfold run, completion, lookup, handleSubmit, try_finally, try_catch, bind,
    read_page, await, ret, throw, found, not_found; cbn.
  destruct (safeParse viewBookingSchema (formData (page w))) as [|issues]; cbn;
    [|repeat split; auto].
  destruct reply as [[code body]|reason]; cbn.
  - destruct (code =? 200)%Z; cbn; [destruct body as [|[details|]]; cbn|];
      repeat split; eauto.
  - destruct reason as [[code|]| |]; cbn; [destruct (code =? 404)%Z; cbn| | |];
      repeat split; eauto.
Qed.

(** X13: what is typed into the two inputs is what the lookup sends: the
    fields can be filled in either order, a field typed twice keeps the
    last value, and a query that passes the schema posts exactly the email
    and the transaction id typed. *)
Theorem typed_fields_are_the_query
        (w : World State) (email booking_trx_id stale : string)
        (reply : Settled (AxiosResponse BookingDetails.t)) :
  safeParse viewBookingSchema (FormData.mk email booking_trx_id) = success ->
  let typed :=
    run (handleChange "booking_trx_id" booking_trx_id)
        (run (handleChange "email" email) w) in
  formData (page typed) = FormData.mk email booking_trx_id
  /\ run (handleChange "email" email)
         (run (handleChange "booking_trx_id" booking_trx_id) w) = typed
  /\ run (handleChange "email" email) (run (handleChange "email" stale) w)
     = run (handleChange "email" email) w
  /\ requests (run (lookup reply) typed)
     = requests w ++ [POST "/check-booking" (CheckBookingJson email booking_trx_id)].
Proof.
  intros Hvalid typed. subst typed.
  split; [reflexivity|]. split; [reflexivity|]. split; [reflexivity|].
  unfold run, lookup, handleSubmit, try_finally, try_catch, bind,
    read_page, await, ret, throw, found, not_found; cbn.
  rewrite Hvalid. cbn.
  destruct reply as [[code body]|reason]; cbn.
  - destruct (code =? 200)%Z; cbn; [destruct body as [|[details|]]; cbn|];
      reflexivity.
  - destruct reason as [[code|]| |]; cbn; [destruct (code =? 404)%Z; cbn| | |];
      reflexivity.
Qed.
End LookupForm.

(** The theorem of X13 on the empty form, filled with the sample query. *)
Lemma typed_fields_witness :
  Zod.safeParse Sample.viewBookingSchema (MyOrdersPage.FormData.mk "a@b.com" "TRX1")
  = Zod.success
  /\ let blank := mkWorld MyOrdersPage.initial Sample.storage [] [] [] in
     let typed :=
       run (MyOrdersPage.handleChange "booking_trx_id" "TRX1")
           (run (MyOrdersPage.handleChange "email" "a@b.com") blank) in
     requests (run (MyOrdersPage.handleSubmit Sample.viewBookingSchema
                      (Rejected (AxiosError (Some 404%Z)))) typed)
     = [POST "/check-booking" (CheckBookingJson "a@b.com" "TRX1")].
Proof.
  split; [reflexivity|].
  destruct (typed_fields_are_the_query
              Sample.viewBookingSchema
              (mkWorld MyOrdersPage.initial Sample.storage [] [] [])
              "a@b.com" "TRX1" "" (Rejected (AxiosError (Some 404%Z))) eq_refl)
    as (_ & _ & _ & Hsent).
  exact Hsent.
Defined.
